(** * EventNotify: the fan-out and delivery pipeline of [src/server.ts]

    A shallow embedding of the server's core (strategies, factory, observer,
    event bus, dispatcher, facade and the HTTP handlers that guard it) and the
    properties of its specification.

    Conventions of the embedding.
    - A JavaScript string is a [string] of UTF-8 bytes.
    - Timestamps ([Date.now()], [createdAt], [sentAt], [latencyMs]) are
      integers ([Z]): every timestamp of the program comes from [Date.now()],
      which yields whole milliseconds.
    - A [Map] is an association list in insertion order without repeated
      keys, a [Set] a list in insertion order without repeated elements.
    - [Date.now()], [crypto.randomUUID()] and [Math.random()] read oracles of
      the runtime; [setTimeout] appends to the runtime's timer queue and
      [res.write] to its output log.
    - A method that mutates [this] is a computation in a state-and-exception
      monad; a [throw] carries the state reached so far. *)

From Stdlib Require Import String Ascii List ZArith QArith Qround Bool Arith Lia.
Import ListNotations.
Close Scope Q_scope.
Open Scope list_scope.
Open Scope string_scope.

Set Implicit Arguments.

(** ** JavaScript strings *)

Module JsString.

(** The double quote and the line feed of a template literal. *)
Definition dquote : string := String (ascii_of_nat 34) EmptyString.
Definition nl : string := String (ascii_of_nat 10) EmptyString.

(** Code points of ECMAScript's WhiteSpace and LineTerminator productions
    that take one byte in UTF-8: TAB, LF, VT, FF, CR, SP. *)
Definition ws1 (a : ascii) : bool :=
  let n := nat_of_ascii a in
  (((9 <=? n) && (n <=? 13)) || (n =? 32))%nat.

(** Two bytes: U+00A0 (C2 A0). *)
Definition ws2 (a b : ascii) : bool :=
  ((nat_of_ascii a =? 194) && (nat_of_ascii b =? 160))%nat.

(** Three bytes: U+1680 (E1 9A 80), U+2000..U+200A (E2 80 80..8A),
    U+2028, U+2029 (E2 80 A8, A9), U+202F (E2 80 AF), U+205F (E2 81 9F),
    U+3000 (E3 80 80), U+FEFF (EF BB BF). *)
Definition ws3 (a b c : ascii) : bool :=
  let x := nat_of_ascii a in
  let y := nat_of_ascii b in
  let z := nat_of_ascii c in
  (((x =? 225) && (y =? 154) && (z =? 128))
   || ((x =? 226) && (y =? 128)
       && (((128 <=? z) && (z <=? 138)) || (z =? 168) || (z =? 169) || (z =? 175)))
   || ((x =? 226) && (y =? 129) && (z =? 159))
   || ((x =? 227) && (y =? 128) && (z =? 128))
   || ((x =? 239) && (y =? 187) && (z =? 191)))%nat.

(** [String.prototype.trimStart]. *)
Fixpoint trimStart (s : string) : string :=
  match s with
  | EmptyString => s
  | String a r1 =>
      if ws1 a then trimStart r1
      else match r1 with
           | EmptyString => s
           | String b r2 =>
               if ws2 a b then trimStart r2
               else match r2 with
                    | EmptyString => s
                    | String c r3 => if ws3 a b c then trimStart r3 else s
                    end
           end
  end.

Fixpoint rev_append (s acc : string) : string :=
  match s with
  | EmptyString => acc
  | String a r => rev_append r (String a acc)
  end.

Definition rev (s : string) : string := rev_append s EmptyString.

(** [trimStart] on the reversed bytes: a white space character is met
    last byte first. *)
Fixpoint trimStartRev (s : string) : string :=
  match s with
  | EmptyString => s
  | String c r1 =>
      if ws1 c then trimStartRev r1
      else match r1 with
           | EmptyString => s
           | String b r2 =>
               if ws2 b c then trimStartRev r2
               else match r2 with
                    | EmptyString => s
                    | String a r3 => if ws3 a b c then trimStartRev r3 else s
                    end
           end
  end.

(** [String.prototype.trimEnd]. *)
Definition trimEnd (s : string) : string := rev (trimStartRev (rev s)).

(** [String.prototype.trim]. *)
Definition trim (s : string) : string := trimEnd (trimStart s).

(** The UTF-8 encodings of the 25 white space and line terminator code
    points, one string per code point. *)
Definition bytes (l : list nat) : string :=
  fold_right (fun n s => String (ascii_of_nat n) s) EmptyString l.

Definition white_space : list string :=
  map bytes
    ([[9]; [10]; [11]; [12]; [13]; [32]; [194; 160]; [225; 154; 128]]
     ++ map (fun z => [226; 128; z]) (seq 128 11)
     ++ [[226; 128; 168]; [226; 128; 169]; [226; 128; 175];
         [226; 129; 159]; [227; 128; 128]; [239; 187; 191]])%list.

(** A string made of white space characters only. *)
Definition whitespace_only (s : string) : Prop :=
  exists l, Forall (fun c => In c white_space) l /\ s = String.concat "" l.

End JsString.

(** ** [Map<string, V>] in insertion order *)

Module JsMap.
Section Ops.
Variable V : Type.

Definition t := list (string * V).

Definition empty : t := [].

(** [Map.prototype.set]: an existing key keeps its place and takes the new
    value, a new key goes last. *)
Fixpoint set (k : string) (v : V) (m : t) : t :=
  match m with
  | [] => [(k, v)]
  | (k', v') :: r =>
      if String.eqb k' k then (k, v) :: r else (k', v') :: set k v r
  end.

(** [Map.prototype.delete]. *)
Definition delete (k : string) (m : t) : t :=
  filter (fun kv => negb (String.eqb (fst kv) k)) m.

Definition keys (m : t) : list string := map fst m.
Definition values (m : t) : list V := map snd m.
Definition size (m : t) : nat := length m.
Definition has (k : string) (m : t) : bool :=
  existsb (String.eqb k) (keys m).

(** The representation invariant: no key twice. *)
Definition wf (m : t) : Prop := NoDup (keys m).
End Ops.
Arguments empty {V}.
End JsMap.

(** ** [Set<T>] in insertion order, for [T] with decidable identity *)

Module JsSet.
Definition t := list nat.
Definition empty : t := [].
Definition has (x : nat) (s : t) : bool := existsb (Nat.eqb x) s.
Definition add (x : nat) (s : t) : t := if has x s then s else (s ++ [x])%list.
Definition delete (x : nat) (s : t) : t :=
  filter (fun y => negb (Nat.eqb y x)) s.
End JsSet.

(** ** Domain (DTOs) *)

Definition ChannelType := string.
Definition EventType := string.

Module DomainEvent.
Record t := mk {
  id : string;
  title : string;
  type : EventType;
  createdAt : Z
}.
End DomainEvent.

Module NotificationMessage.
Record t := mk {
  id : string;
  userId : string;
  userName : string;
  channel : ChannelType;
  eventId : string;
  eventTitle : string;
  eventType : EventType;
  sentAt : Z;
  latencyMs : Z;
  rendered : string
}.
End NotificationMessage.

Module Subscriber.
Record t := mk {
  id : string;
  name : string;
  channel : ChannelType
}.
End Subscriber.

(** ** The runtime: clock, id generator, random source, timers, sockets *)

(** An Express [Response] of a streaming connection, by identity. *)
Definition Response := nat.

(** The functions passed as [deliver] to [AsyncDispatcher.dispatch], by
    name: the program has one, [(m) => this.broadcast(m)]. *)
Inductive DeliverFn :=
| BroadcastFn.

(** A closure handed to [setTimeout]: [() => deliver(m)]. *)
Inductive Task :=
| Thunk (deliver : DeliverFn) (m : NotificationMessage.t).

Record Runtime := mkRuntime {
  now_oracle : nat -> Z;        (* the value of the k-th [Date.now()] *)
  now_calls : nat;
  uuid_oracle : nat -> string;  (* the value of the k-th [randomUUID()] *)
  uuid_calls : nat;
  random_oracle : nat -> Q;     (* the value of the k-th [Math.random()] *)
  random_calls : nat;
  timers : list (Z * Task);     (* pending [setTimeout]s: delay, callback *)
  written : list (Response * string); (* every [res.write], oldest first *)
  JSON_stringify : NotificationMessage.t -> string
}.

(** ** State and exceptions *)

Inductive JsError :=
| Error (message : string)
| TypeError (message : string).

Inductive Result (S A : Type) :=
| Ok (a : A) (s : S)
| Throw (e : JsError) (s : S).
Arguments Ok {S A} a s.
Arguments Throw {S A} e s.

Definition M (S A : Type) := S -> Result S A.

Definition ret {S A} (a : A) : M S A := fun s => Ok a s.

Definition bind {S A B} (c : M S A) (k : A -> M S B) : M S B :=
  fun s => match c s with
           | Ok a s' => k a s'
           | Throw e s' => Throw e s'
           end.

Definition throw {S A} (e : JsError) : M S A := fun s => Throw e s.
Definition gets {S A} (f : S -> A) : M S A := fun s => Ok (f s) s.
Definition modify {S} (f : S -> S) : M S unit := fun s => Ok tt (f s).

Declare Scope js_scope.
Delimit Scope js_scope with js.
Notation "x <- c ;; k" := (bind c (fun x => k))
  (at level 61, c at next level, right associativity) : js_scope.
Notation "c ;; k" := (bind c (fun _ => k))
  (at level 61, right associativity) : js_scope.
Open Scope js_scope.

(** The state a computation ends in, whether it returned or threw. *)
Definition final {S A} (r : Result S A) : S :=
  match r with Ok _ s => s | Throw _ s => s end.

Definition IO := M Runtime.

Definition Date_now : IO Z :=
  fun r =>
    Ok (now_oracle r (now_calls r))
       (mkRuntime (now_oracle r) (S (now_calls r)) (uuid_oracle r) (uuid_calls r)
                  (random_oracle r) (random_calls r) (timers r) (written r) (JSON_stringify r)).

(** Utilidad ID *)
Definition cryptoRandomId : IO string :=
  fun r =>
    Ok (uuid_oracle r (uuid_calls r))
       (mkRuntime (now_oracle r) (now_calls r) (uuid_oracle r) (S (uuid_calls r))
                  (random_oracle r) (random_calls r) (timers r) (written r) (JSON_stringify r)).

Definition Math_random : IO Q :=
  fun r =>
    Ok (random_oracle r (random_calls r))
       (mkRuntime (now_oracle r) (now_calls r) (uuid_oracle r) (uuid_calls r)
                  (random_oracle r) (S (random_calls r)) (timers r) (written r) (JSON_stringify r)).

Definition Math_floor (q : Q) : Z := Qfloor q.
Definition Math_max (a b : Z) : Z := Z.max a b.

Definition setTimeout (callback : Task) (delay : Z) : IO unit :=
  fun r =>
    Ok tt
       (mkRuntime (now_oracle r) (now_calls r) (uuid_oracle r) (uuid_calls r)
                  (random_oracle r) (random_calls r)
                  ((timers r ++ [(delay, callback)])%list) (written r)
                  (JSON_stringify r)).

(** [client.write(chunk)] *)
Definition write (client : Response) (chunk : string) : IO unit :=
  fun r =>
    Ok tt
       (mkRuntime (now_oracle r) (now_calls r) (uuid_oracle r) (uuid_calls r)
                  (random_oracle r) (random_calls r)
                  (timers r) ((written r ++ [(client, chunk)])%list)
                  (JSON_stringify r)).

(** ** Strategy (Comportamiento) *)

Record NotificationStrategy := {
  send : string -> DomainEvent.t -> string  (* retorna texto enviado *)
}.

Definition evento (event : DomainEvent.t) : string :=
  ": Evento " ++ JsString.dquote ++ DomainEvent.title event ++ JsString.dquote
  ++ " (" ++ DomainEvent.type event ++ ")".

Definition EmailStrategy : NotificationStrategy :=
  {| send := fun userName event => "📧 Email a " ++ userName ++ evento event |}.

Definition SmsStrategy : NotificationStrategy :=
  {| send := fun userName event => "📱 SMS a " ++ userName ++ evento event |}.

Definition PushStrategy : NotificationStrategy :=
  {| send := fun userName event => "🔔 Push a " ++ userName ++ evento event |}.

(** ** Factory Method (Creacional) *)

Module NotificationFactory.
Definition create {S} (channel : ChannelType) : M S NotificationStrategy :=
  if channel =? "email" then ret EmailStrategy
  else if channel =? "sms" then ret SmsStrategy
  else if channel =? "push" then ret PushStrategy
  else throw (Error ("Canal no soportado: " ++ channel)).
End NotificationFactory.

(** ** Observer (Comportamiento) *)

(** The interface [Observer]. A listener holds no reference to the bus or
    the facade: its [update] acts on the runtime alone. *)
Class Observer (O : Type) := {
  update : O -> DomainEvent.t -> IO NotificationMessage.t
}.

Record UserSubscriber := new_UserSubscriber {
  subscriber : Subscriber.t
}.

Definition UserSubscriber_update (this : UserSubscriber) (event : DomainEvent.t)
  : IO NotificationMessage.t :=
  strategy <- NotificationFactory.create (Subscriber.channel (subscriber this)) ;;
  sentAt <- Date_now ;;
  let rendered := send strategy (Subscriber.name (subscriber this)) event in
  id <- cryptoRandomId ;;
  ret (NotificationMessage.mk
         id
         (Subscriber.id (subscriber this))
         (Subscriber.name (subscriber this))
         (Subscriber.channel (subscriber this))
         (DomainEvent.id event)
         (DomainEvent.title event)
         (DomainEvent.type event)
         sentAt
         (Math_max 0 (sentAt - DomainEvent.createdAt event))
         rendered).

#[global] Instance UserSubscriber_Observer : Observer UserSubscriber :=
  {| update := UserSubscriber_update |}.

(** What pairs a listener with its entry of a batch: the entry is what the
    listener's [update] returned for the event. *)
Definition built_by {O} `{Observer O} (event : DomainEvent.t) (obs : O)
    (m : NotificationMessage.t) : Prop :=
  exists r1 r2, update obs event r1 = Ok m r2.

Module EventBus.
Record t (O : Type) := mk {
  observers : JsMap.t O
}.

Definition new {O} : t O := mk (@JsMap.empty O).

Definition subscribe {O} (id : string) (observer : O) (this : t O) : t O :=
  mk (JsMap.set id observer (observers this)).

Definition unsubscribe {O} (id : string) (this : t O) : t O :=
  mk (JsMap.delete id (observers this)).

(** The loop of [notifyAll]: [rest] is what the iterator has still to
    yield, [out] the array built so far. *)
Fixpoint notifyAll_loop {O} `{Observer O} (rest : list O)
    (event : DomainEvent.t) (out : list NotificationMessage.t)
  : IO (list NotificationMessage.t) :=
  match rest with
  | [] => ret out
  | obs :: rest' =>
      m <- update obs event ;;
      notifyAll_loop rest' event (out ++ [m])%list
  end.

Definition notifyAll {O} `{Observer O} (this : t O) (event : DomainEvent.t)
  : IO (list NotificationMessage.t) :=
  notifyAll_loop (JsMap.values (observers this)) event [].

Definition count {O} (this : t O) : nat := JsMap.size (observers this).
End EventBus.

(** ** Cola async (para soft real-time y desacoplar despacho) *)

Module AsyncDispatcher.
Inductive t := new.

Fixpoint dispatch (messages : list NotificationMessage.t) (deliver : DeliverFn)
  : IO unit :=
  match messages with
  | [] => ret tt
  | m :: rest =>
      r <- Math_random ;;
      let jitter := Math_floor (r * 120)%Q in  (* 0..119ms *)
      setTimeout (Thunk deliver m) jitter ;;
      dispatch rest deliver
  end.
End AsyncDispatcher.

(** ** Facade (Estructural): punto unico de acceso *)

Record EventNotifyFacade := mkFacade {
  bus : EventBus.t UserSubscriber;
  dispatcher : AsyncDispatcher.t;
  subscribers : JsMap.t Subscriber.t;
  sseClients : JsSet.t  (* clientes SSE conectados *)
}.

Definition new_EventNotifyFacade : EventNotifyFacade :=
  mkFacade EventBus.new AsyncDispatcher.new JsMap.empty JsSet.empty.

(** The process: the one facade of the server and the runtime under it. *)
Record System := mkSystem {
  facade : EventNotifyFacade;
  runtime : Runtime
}.

Definition App := M System.

Definition liftIO {A} (c : IO A) : App A :=
  fun st =>
    match c (runtime st) with
    | Ok a r => Ok a (mkSystem (facade st) r)
    | Throw e r => Throw e (mkSystem (facade st) r)
    end.

(** An assignment to a field of [this]. *)
Definition on_facade (f : EventNotifyFacade -> EventNotifyFacade) : App unit :=
  modify (fun st => mkSystem (f (facade st)) (runtime st)).

Definition set_bus (b : EventBus.t UserSubscriber) (f : EventNotifyFacade) :=
  mkFacade b (dispatcher f) (subscribers f) (sseClients f).
Definition set_subscribers (m : JsMap.t Subscriber.t) (f : EventNotifyFacade) :=
  mkFacade (bus f) (dispatcher f) m (sseClients f).
Definition set_sseClients (c : JsSet.t) (f : EventNotifyFacade) :=
  mkFacade (bus f) (dispatcher f) (subscribers f) c.

Definition addSseClient (res : Response) : App unit :=
  on_facade (fun f => set_sseClients (JsSet.add res (sseClients f)) f).

Definition removeSseClient (res : Response) : App unit :=
  on_facade (fun f => set_sseClients (JsSet.delete res (sseClients f)) f).

Fixpoint broadcast_loop (clients : list Response) (data : string) : IO unit :=
  match clients with
  | [] => ret tt
  | client :: rest =>
      write client ("event: notification" ++ JsString.nl) ;;
      write client ("data: " ++ data ++ JsString.nl ++ JsString.nl) ;;
      broadcast_loop rest data
  end.

Definition broadcast (msg : NotificationMessage.t) : App unit :=
  data <- gets (fun st => JSON_stringify (runtime st) msg) ;;
  clients <- gets (fun st => sseClients (facade st)) ;;
  liftIO (broadcast_loop clients data).

Definition subscribeUser (name : string) (channel : ChannelType)
  : App Subscriber.t :=
  id <- liftIO cryptoRandomId ;;
  let sub := Subscriber.mk id name channel in
  on_facade (fun f =>
    set_subscribers (JsMap.set (Subscriber.id sub) sub (subscribers f)) f) ;;
  on_facade (fun f =>
    set_bus (EventBus.subscribe (Subscriber.id sub) (new_UserSubscriber sub) (bus f)) f) ;;
  ret sub.

Definition unsubscribeUser (id : string) : App unit :=
  on_facade (fun f => set_subscribers (JsMap.delete id (subscribers f)) f) ;;
  on_facade (fun f => set_bus (EventBus.unsubscribe id (bus f)) f).

Definition listSubscribers : App (list Subscriber.t) :=
  gets (fun st => JsMap.values (subscribers (facade st))).

Definition publishEvent (title : string) (type : EventType)
  : App DomainEvent.t :=
  id <- liftIO cryptoRandomId ;;
  createdAt <- liftIO Date_now ;;
  let event := DomainEvent.mk id title type createdAt in
  this_bus <- gets (fun st => bus (facade st)) ;;
  messages <- liftIO (EventBus.notifyAll this_bus event) ;;
  liftIO (AsyncDispatcher.dispatch messages BroadcastFn) ;;
  ret event.

Definition subscriberCount : App nat :=
  gets (fun st => EventBus.count (bus (facade st))).

(** ** The event loop: a pending timer fires *)

Definition apply_deliver (deliver : DeliverFn) (m : NotificationMessage.t)
  : App unit :=
  match deliver with
  | BroadcastFn => broadcast m
  end.

Definition run_task (task : Task) : App unit :=
  match task with
  | Thunk deliver m => apply_deliver deliver m
  end.

Fixpoint remove_nth {A} (k : nat) (l : list A) : list A :=
  match l, k with
  | [], _ => []
  | _ :: r, O => r
  | x :: r, S k' => x :: remove_nth k' r
  end.

Definition clearTimer (k : nat) : IO unit :=
  fun r =>
    Ok tt
       (mkRuntime (now_oracle r) (now_calls r) (uuid_oracle r) (uuid_calls r)
                  (random_oracle r) (random_calls r)
                  (remove_nth k (timers r)) (written r) (JSON_stringify r)).

(** The [k]-th pending timer comes due: it leaves the queue and its callback
    runs. Which timer is next is the scheduler's choice; the delays only
    restrict that choice. *)
Definition fire (k : nat) : App unit :=
  pending <- gets (fun st => timers (runtime st)) ;;
  match nth_error pending k with
  | None => ret tt
  | Some (_, task) => liftIO (clearTimer k) ;; run_task task
  end.

(** ** Web server *)

(** A value of a parsed JSON body ([req.body] after [express.json()]); a
    field that is absent reads as [JsUndefined]. *)
Inductive JsValue :=
| JsUndefined
| JsNull
| JsBoolean (b : bool)
| JsNumber (q : Q)
| JsStr (s : string)
| JsObject.   (* any array or object *)

(** ToBoolean, the test of [!v]. *)
Definition truthy (v : JsValue) : bool :=
  match v with
  | JsUndefined | JsNull => false
  | JsBoolean b => b
  | JsNumber q => negb (Qeq_bool q 0)
  | JsStr s => negb (s =? "")
  | JsObject => true
  end.

Definition typeof (v : JsValue) : string :=
  match v with
  | JsUndefined => "undefined"
  | JsNull => "object"
  | JsBoolean _ => "boolean"
  | JsNumber _ => "number"
  | JsStr _ => "string"
  | JsObject => "object"
  end.

(** The comparison of [Array.prototype.includes]. An object of the body is
    no element of an array literal of the handler. *)
Definition SameValueZero (x y : JsValue) : bool :=
  match x, y with
  | JsUndefined, JsUndefined => true
  | JsNull, JsNull => true
  | JsBoolean a, JsBoolean b => Bool.eqb a b
  | JsNumber a, JsNumber b => Qeq_bool a b
  | JsStr a, JsStr b => a =? b
  | _, _ => false
  end.

Definition includes (l : list JsValue) (x : JsValue) : bool :=
  existsb (fun y => SameValueZero y x) l.

Inductive ResponseBody :=
| ErrorBody (error : string)
| SubscribeBody (subscriber : Subscriber.t) (total : nat)
| UnsubscribeBody (ok : bool) (total : nat)
| SubscribersBody (subscribers : list Subscriber.t) (total : nat)
| PublishBody (event : DomainEvent.t) (totalSubscribers : nat).

Record HttpResponse := mkResponse {
  status : nat;
  body : ResponseBody
}.

(** [res.status(400).json({ error })] and [res.json(body)]. *)
Definition bad_request (error : string) : HttpResponse :=
  mkResponse 400 (ErrorBody error).
Definition json (b : ResponseBody) : HttpResponse := mkResponse 200 b.

(** SSE endpoint: [GET /events], and the [close] event of its request. *)
Definition events_handler (res : Response) : App unit :=
  liftIO (write res ("event: hello" ++ JsString.nl)) ;;
  liftIO (write res ("data: {" ++ JsString.dquote ++ "ok" ++ JsString.dquote
                     ++ ":true," ++ JsString.dquote ++ "message" ++ JsString.dquote
                     ++ ":" ++ JsString.dquote ++ "SSE conectado" ++ JsString.dquote
                     ++ "}" ++ JsString.nl ++ JsString.nl)) ;;
  addSseClient res.

Definition events_close (res : Response) : App unit :=
  removeSseClient res.

(** API: suscribir *)
Definition subscribe_handler (name channel : JsValue) : App HttpResponse :=
  if negb (truthy name) || negb (typeof name =? "string") then
    ret (bad_request "name es requerido")
  else if negb (truthy channel)
          || negb (includes [JsStr "email"; JsStr "sms"; JsStr "push"] channel) then
    ret (bad_request "channel inválido (email|sms|push)")
  else
    match name, channel with
    | JsStr name, JsStr channel =>
        sub <- subscribeUser (JsString.trim name) channel ;;
        total <- subscriberCount ;;
        ret (json (SubscribeBody sub total))
    | JsStr _, _ => throw (TypeError "channel is not a string")
    | _, _ => throw (TypeError "name.trim is not a function")
    end.

(** API: desuscribir. A truthy [id] that is no string is the same value as no
    key of either map, so both [delete]s find nothing. *)
Definition unsubscribe_handler (id : JsValue) : App HttpResponse :=
  if negb (truthy id) then ret (bad_request "id es requerido")
  else
    match id with
    | JsStr id => unsubscribeUser id
    | _ => ret tt
    end ;;
    total <- subscriberCount ;;
    ret (json (UnsubscribeBody true total)).

(** API: listar suscriptores *)
Definition subscribers_handler : App HttpResponse :=
  subs <- listSubscribers ;;
  total <- subscriberCount ;;
  ret (json (SubscribersBody subs total)).

(** API: publicar evento *)
Definition publish_handler (title type : JsValue) : App HttpResponse :=
  if negb (truthy title) || negb (typeof title =? "string") then
    ret (bad_request "title es requerido")
  else if negb (truthy type)
          || negb (includes [JsStr "CREATED"; JsStr "UPDATED"; JsStr "CANCELLED"]
                            type) then
    ret (bad_request "type inválido (CREATED|UPDATED|CANCELLED)")
  else
    match title, type with
    | JsStr title, JsStr type =>
        event <- publishEvent (JsString.trim title) type ;;
        total <- subscriberCount ;;
        ret (json (PublishBody event total))
    | JsStr _, _ => throw (TypeError "type is not a string")
    | _, _ => throw (TypeError "title.trim is not a function")
    end.

(** ** Histories of the process *)

(** What can happen to the facade: a call of one of its methods, or a timer
    coming due. *)
Inductive Op :=
| SubscribeUser (name : string) (channel : ChannelType)
| UnsubscribeUser (id : string)
| PublishEvent (title : string) (type : EventType)
| AddSseClient (res : Response)
| RemoveSseClient (res : Response)
| Fire (k : nat).

Definition step (op : Op) : App unit :=
  match op with
  | SubscribeUser name channel => subscribeUser name channel ;; ret tt
  | UnsubscribeUser id => unsubscribeUser id
  | PublishEvent title type => publishEvent title type ;; ret tt
  | AddSseClient res => addSseClient res
  | RemoveSseClient res => removeSseClient res
  | Fire k => fire k
  end.

(** The process goes on after an operation that threw, from the state the
    operation reached. *)
Definition exec (ops : list Op) (st : System) : System :=
  fold_left (fun st op => final (step op st)) ops st.

Definition initial (r : Runtime) : System := mkSystem new_EventNotifyFacade r.

Inductive reachable : System -> Prop :=
| reachable_initial r : reachable (initial r)
| reachable_step st op : reachable st -> reachable (final (step op st)).

(** The ids of the listeners of the bus and of the entries of the registry,
    in the order of their maps. *)
Definition listener_ids (st : System) : list string :=
  JsMap.keys (EventBus.observers (bus (facade st))).
Definition registry_ids (st : System) : list string :=
  JsMap.keys (subscribers (facade st)).

(** The chunks written to one client, oldest first. *)
Definition written_to (client : Response) (r : Runtime) : list string :=
  map snd (filter (fun w => Nat.eqb (fst w) client) (written r)).

(** The channels the factory knows. *)
Definition supported (channel : ChannelType) : Prop :=
  channel = "email" \/ channel = "sms" \/ channel = "push".

(** The registry invariant: the bus and the registry hold the same ids. *)
Definition same_ids (st : System) : Prop :=
  forall id, In id (listener_ids st) <-> In id (registry_ids st).

(** The event [publishEvent] builds in a runtime, and the runtime after it
    has drawn the id and read the clock. *)
Definition published_event (title : string) (type : EventType) (r : Runtime)
  : DomainEvent.t :=
  DomainEvent.mk (uuid_oracle r (uuid_calls r)) title type
                 (now_oracle r (now_calls r)).

Definition after_event_built (r : Runtime) : Runtime :=
  final (Date_now (final (cryptoRandomId r))).

(** The calls of [subscribeUser] and of [unsubscribeUser] in a history. *)
Fixpoint subscribes (ops : list Op) : nat :=
  match ops with
  | [] => 0
  | SubscribeUser _ _ :: rest => S (subscribes rest)
  | _ :: rest => subscribes rest
  end.

Fixpoint unsubscribes (ops : list Op) : nat :=
  match ops with
  | [] => 0
  | UnsubscribeUser _ :: rest => S (unsubscribes rest)
  | _ :: rest => unsubscribes rest
  end.

(** A history in which every [subscribeUser] is given an id that no present
    listener has, and every [unsubscribeUser] names a subscriber that the
    history created and has not unsubscribed yet. [own] lists the ids of
    those subscribers at the start of the history. *)
Fixpoint valid_history (ops : list Op) (own : list string) (st : System) : Prop :=
  match ops with
  | [] => True
  | op :: rest =>
      match op with
      | SubscribeUser name channel =>
          match subscribeUser name channel st with
          | Ok sub st' =>
              ~ In (Subscriber.id sub) (listener_ids st)
              /\ valid_history rest (Subscriber.id sub :: own) st'
          | Throw _ _ => False
          end
      | UnsubscribeUser id =>
          In id own
          /\ valid_history rest (remove string_dec id own) (final (step op st))
      | _ => valid_history rest own (final (step op st))
      end
  end.

(** What [broadcast] writes to one client for one serialized message. *)
Definition notification_chunks (data : string) (client : Response)
  : list (Response * string) :=
  [(client, "event: notification" ++ JsString.nl);
   (client, "data: " ++ data ++ JsString.nl ++ JsString.nl)].

(** ** Sample states *)

Module Sample.
(** A runtime whose clock starts at 1000 and advances 7 ms per reading,
    whose ids are [u0], [u1], ..., and whose random source is stuck at
    one half. *)
Definition digit (k : nat) : string := String (ascii_of_nat (48 + k)) "".

Definition rt : Runtime :=
  mkRuntime (fun k => (1000 + 7 * Z.of_nat k)%Z) 0
            (fun k => "u" ++ digit k) 0
            (fun _ => (1 # 2)%Q) 0
            [] []
            NotificationMessage.rendered.

Definition ana : Subscriber.t := Subscriber.mk "a" "Ana" "email".
Definition bob : Subscriber.t := Subscriber.mk "b" "Bob" "sms".
Definition cy : Subscriber.t := Subscriber.mk "c" "Cy" "push".
(** A subscriber on a channel the factory does not know. *)
Definition fay : Subscriber.t := Subscriber.mk "f" "Fay" "fax".

Definition bus_of (subs : list Subscriber.t) : EventBus.t UserSubscriber :=
  fold_left
    (fun b s => EventBus.subscribe (Subscriber.id s) (new_UserSubscriber s) b)
    subs EventBus.new.

Definition past : DomainEvent.t := DomainEvent.mk "e1" "X" "CREATED" 400.
Definition future : DomainEvent.t := DomainEvent.mk "e2" "Y" "UPDATED" 5000.

(** Ana and Bob subscribed and two streaming clients connected; then one
    event published and not yet delivered. *)
Definition subscribed : System :=
  exec [SubscribeUser "Ana" "email"; SubscribeUser "Bob" "sms";
        AddSseClient 1; AddSseClient 2]
       (initial rt).

Definition published : System := exec [PublishEvent "X" "CREATED"] subscribed.

(** A bus with Fay's listener between Ana's and Cy's, and a process around
    it. *)
Definition flaky_bus : EventBus.t UserSubscriber := bus_of [ana; fay; cy].
Definition flaky : System := mkSystem (set_bus flaky_bus new_EventNotifyFacade) rt.

(** Three subscribes and two unsubscribes of subscribers they created, with
    a publish and a delivery in between. *)
Definition history : list Op :=
  [SubscribeUser "Cy" "push"; SubscribeUser "Dee" "email";
   UnsubscribeUser "u6"; PublishEvent "Z" "UPDATED"; Fire 0;
   SubscribeUser "Eve" "sms"; UnsubscribeUser "u5"].

(** A space, a no-break space and a line feed. *)
Definition blank : string := JsString.bytes [32; 194; 160; 10].
End Sample.

(** ** The HTTP surface as a whole *)

(** What reaches the process: a request on one of the five routes, the
    [close] event of a streaming request, or a timer coming due. *)
Inductive Request :=
| PostSubscribe (name channel : JsValue)
| PostUnsubscribe (id : JsValue)
| GetSubscribers
| PostPublish (title type : JsValue)
| GetEvents (res : Response)
| CloseEvents (res : Response)
| TimerDue (k : nat).

(** The response of a route that answers with one JSON document; the
    streaming route and the callbacks answer with none. *)
Definition serve (req : Request) : App (option HttpResponse) :=
  match req with
  | PostSubscribe name channel =>
      resp <- subscribe_handler name channel ;; ret (Some resp)
  | PostUnsubscribe id => resp <- unsubscribe_handler id ;; ret (Some resp)
  | GetSubscribers => resp <- subscribers_handler ;; ret (Some resp)
  | PostPublish title type =>
      resp <- publish_handler title type ;; ret (Some resp)
  | GetEvents res => events_handler res ;; ret None
  | CloseEvents res => events_close res ;; ret None
  | TimerDue k => fire k ;; ret None
  end.

(** The states the server can be in: those its routes and timers lead to
    from the empty facade. *)
Inductive http_reachable : System -> Prop :=
| http_reachable_initial r : http_reachable (initial r)
| http_reachable_serve st req :
    http_reachable st -> http_reachable (final (serve req st)).

(** ** Vocabulary of the further properties *)

(** [x] occurs in [s]. *)
Definition contains (s x : string) : Prop :=
  exists pre post, s = pre ++ x ++ post.

(** The listeners that wrap the entries of a registry, id by id. *)
Definition listeners_of (subs : JsMap.t Subscriber.t) : JsMap.t UserSubscriber :=
  map (fun kv => (fst kv, new_UserSubscriber (snd kv))) subs.

(** Every listener of the bus is on a channel the factory knows. *)
Definition channels_supported (st : System) : Prop :=
  Forall (fun obs => supported (Subscriber.channel (subscriber obs)))
         (JsMap.values (EventBus.observers (bus (facade st)))).

(** The registry and the bus in lockstep: the listeners are the wrapped
    entries of the registry, id by id and in the same order; every entry is
    stored under its own id; no id and no client twice. *)
Definition lockstep (f : EventNotifyFacade) : Prop :=
  EventBus.observers (bus f) = listeners_of (subscribers f)
  /\ Forall (fun kv => Subscriber.id (snd kv) = fst kv) (subscribers f)
  /\ JsMap.wf (subscribers f)
  /\ NoDup (sseClients f).

(** The event types the publish route accepts. *)
Definition known_type (type : EventType) : Prop :=
  type = "CREATED" \/ type = "UPDATED" \/ type = "CANCELLED".

(** What the environment promises: the clock does not run backwards,
    [randomUUID] does not repeat itself, [Math.random] stays in [0, 1). *)
Definition clock_monotone (r : Runtime) : Prop :=
  forall i j, i <= j -> (now_oracle r i <= now_oracle r j)%Z.

Definition uuid_never_repeats (r : Runtime) : Prop :=
  forall i j, uuid_oracle r i = uuid_oracle r j -> i = j.


(** The runtime after [n] notifications were built in [r]: [n] clock
    readings and [n] ids further. *)
Definition after_builds (n : nat) (r : Runtime) : Runtime :=
  mkRuntime (now_oracle r) (now_calls r + n) (uuid_oracle r) (uuid_calls r + n)
            (random_oracle r) (random_calls r) (timers r) (written r)
            (JSON_stringify r).

(** The notification a [UserSubscriber] builds as the [k]-th listener of a
    fan-out that starts in [r]. *)
Definition kth_notification (event : DomainEvent.t) (r : Runtime)
    (obs : UserSubscriber) (k : nat) (m : NotificationMessage.t) : Prop :=
  NotificationMessage.id m = uuid_oracle r (uuid_calls r + k)
  /\ NotificationMessage.userId m = Subscriber.id (subscriber obs)
  /\ NotificationMessage.userName m = Subscriber.name (subscriber obs)
  /\ NotificationMessage.channel m = Subscriber.channel (subscriber obs)
  /\ NotificationMessage.eventId m = DomainEvent.id event
  /\ NotificationMessage.eventTitle m = DomainEvent.title event
  /\ NotificationMessage.eventType m = DomainEvent.type event
  /\ NotificationMessage.sentAt m = now_oracle r (now_calls r + k)
  /\ NotificationMessage.latencyMs m
     = Z.max 0 (NotificationMessage.sentAt m - DomainEvent.createdAt event).

(** What one due timer writes, given the serializer and the clients
    connected when it fires. *)
Definition delivery (r : Runtime) (clients : list Response) (t : Z * Task)
  : list (Response * string) :=
  match snd t with
  | Thunk _ m => flat_map (notification_chunks (JSON_stringify r m)) clients
  end.

(** Every pending timer comes due, oldest first. *)
Definition drain (st : System) : System :=
  exec (repeat (Fire 0) (length (timers (runtime st)))) st.

(** ** More sample states *)

Module Scenario.
(** A registry entry re-registered under Ana's id. *)
Definition ann : Subscriber.t := Subscriber.mk "a" "Ann" "push".

(** The e-mail about the past event built for Ana in the sample runtime,
    and the one built for her namesake under another id. *)
Definition namesake : Subscriber.t := Subscriber.mk "z" "Ana" "email".

Definition mail_to (userId : string) : NotificationMessage.t :=
  NotificationMessage.mk "u0" userId "Ana" "email" "e1" "X" "CREATED" 1000 600
                         (send EmailStrategy "Ana" Sample.past).

(** A runtime like the sample one whose ids are [u], [ui], [uii], ...: no
    id twice. Ana and Bob subscribed in it. *)
Fixpoint tally (k : nat) : string :=
  match k with
  | O => ""
  | S k' => String "i" (tally k')
  end.

Definition rt_tally : Runtime :=
  mkRuntime (now_oracle Sample.rt) 0 (fun k => String "u" (tally k)) 0
            (random_oracle Sample.rt) 0 [] [] (JSON_stringify Sample.rt).

Definition subscribed_tally : System :=
  exec [SubscribeUser "Ana" "email"; SubscribeUser "Bob" "sms"]
       (initial rt_tally).

(** The sample state after Bob unsubscribed, his notification still
    pending. *)
Definition bob_left : System := final (unsubscribeUser "u1" Sample.published).
End Scenario.

(** * Properties *)

Unset Implicit Arguments.

(** ** Maps in insertion order *)

Section JsMapFacts.
Variable V : Type.
Implicit Types (m : JsMap.t V) (k : string) (v : V).

Lemma keys_set m k v :
  JsMap.keys (JsMap.set k v m)
  = if JsMap.has k m then JsMap.keys m else (JsMap.keys m ++ [k])%list.
Proof.
  unfold JsMap.has, JsMap.keys.
  induction m as [|[k' v'] r IH]; simpl; [reflexivity|].
  rewrite (String.eqb_sym k k').
  destruct (String.eqb k' k) eqn:E; simpl.
  - apply String.eqb_eq in E. now subst.
  - rewrite IH. now destruct (existsb _ _).
Qed.

Lemma has_In m k : JsMap.has k m = true <-> In k (JsMap.keys m).
Proof.
  unfold JsMap.has. rewrite existsb_exists. split.
  - intros (x & Hx & E). apply String.eqb_eq in E. now subst.
  - intros H. exists k. split; [assumption | apply String.eqb_refl].
Qed.

Lemma has_false m k : ~ In k (JsMap.keys m) -> JsMap.has k m = false.
Proof.
  intros H. destruct (JsMap.has k m) eqn:E; [|reflexivity].
  apply has_In in E. contradiction.
Qed.

Lemma keys_set_fresh m k v :
  ~ In k (JsMap.keys m) -> JsMap.keys (JsMap.set k v m) = (JsMap.keys m ++ [k])%list.
Proof. intros H. rewrite keys_set, has_false; auto. Qed.

Lemma set_fresh m k v :
  ~ In k (JsMap.keys m) -> JsMap.set k v m = (m ++ [(k, v)])%list.
Proof.
  induction m as [|[k' v'] r IH]; simpl; intros H; [reflexivity|].
  destruct (String.eqb k' k) eqn:E.
  - apply String.eqb_eq in E. subst. tauto.
  - rewrite IH; tauto.
Qed.

Lemma In_keys_set m k v k' :
  In k' (JsMap.keys (JsMap.set k v m)) <-> k' = k \/ In k' (JsMap.keys m).
Proof.
  rewrite keys_set. destruct (JsMap.has k m) eqn:E.
  - apply has_In in E. split; [tauto|]. intros [->|]; assumption.
  - rewrite in_app_iff. simpl. intuition congruence.
Qed.

Lemma In_set m k v : In (k, v) (JsMap.set k v m).
Proof.
  induction m as [|[k' v'] r IH]; simpl; [now left|].
  destruct (String.eqb k' k); simpl; auto.
Qed.

Lemma keys_delete m k :
  JsMap.keys (JsMap.delete k m)
  = filter (fun k' => negb (String.eqb k' k)) (JsMap.keys m).
Proof.
  induction m as [|[k' v'] r IH]; simpl; [reflexivity|].
  destruct (String.eqb k' k); simpl; unfold JsMap.keys, JsMap.delete in *;
    now rewrite IH.
Qed.

Lemma In_keys_delete m k k' :
  In k' (JsMap.keys (JsMap.delete k m)) <-> k' <> k /\ In k' (JsMap.keys m).
Proof.
  rewrite keys_delete, filter_In, negb_true_iff, String.eqb_neq. tauto.
Qed.

Lemma delete_absent m k : ~ In k (JsMap.keys m) -> JsMap.delete k m = m.
Proof.
  induction m as [|[k' v'] r IH]; simpl; intros H; [reflexivity|].
  destruct (String.eqb k' k) eqn:E; simpl.
  - apply String.eqb_eq in E. subst. tauto.
  - f_equal. apply IH. tauto.
Qed.

Lemma wf_set m k v : JsMap.wf m -> JsMap.wf (JsMap.set k v m).
Proof.
  unfold JsMap.wf. intros H. rewrite keys_set.
  destruct (JsMap.has k m) eqn:E; [assumption|].
  apply NoDup_app; [assumption | repeat constructor; simpl; tauto |].
  intros x Hx [<-|[]]. apply has_In in Hx. congruence.
Qed.

Lemma wf_delete m k : JsMap.wf m -> JsMap.wf (JsMap.delete k m).
Proof. unfold JsMap.wf. rewrite keys_delete. apply NoDup_filter. Qed.

Lemma size_keys m : JsMap.size m = length (JsMap.keys m).
Proof. unfold JsMap.size, JsMap.keys. now rewrite length_map. Qed.
End JsMapFacts.

(** Occurrences of a key, and what [filter] does to them. *)
Lemma count_occ_filter_other (l : list string) (k k' : string) :
  k' <> k ->
  count_occ string_dec (filter (fun x => negb (String.eqb x k)) l) k'
  = count_occ string_dec l k'.
Proof.
  intros Hne. induction l as [|x r IH]; simpl; [reflexivity|].
  destruct (String.eqb x k) eqn:E; simpl.
  - apply String.eqb_eq in E. subst x.
    destruct (string_dec k k'); [congruence | assumption].
  - destruct (string_dec x k'); now rewrite IH.
Qed.

Lemma length_filter_once (l : list string) (k : string) :
  count_occ string_dec l k = 1 ->
  S (length (filter (fun x => negb (String.eqb x k)) l)) = length l.
Proof.
  induction l as [|x r IH]; simpl; [discriminate|].
  destruct (string_dec x k) as [->|Hne].
  - rewrite String.eqb_refl. simpl. intros H. injection H as H.
    f_equal. clear IH.
    induction r as [|y r IH]; simpl in *; [reflexivity|].
    destruct (string_dec y k); [discriminate|].
    apply String.eqb_neq in n. rewrite n. simpl. now rewrite IH.
  - apply String.eqb_neq in Hne. rewrite Hne. simpl. intros H. now rewrite IH.
Qed.

(** ** The builder *)

Lemma UserSubscriber_update_ok (s : Subscriber.t) (event : DomainEvent.t)
    (r : Runtime) :
  supported (Subscriber.channel s) ->
  exists rendered,
    update (new_UserSubscriber s) event r
    = Ok (NotificationMessage.mk
            (uuid_oracle r (uuid_calls r))
            (Subscriber.id s) (Subscriber.name s) (Subscriber.channel s)
            (DomainEvent.id event) (DomainEvent.title event)
            (DomainEvent.type event)
            (now_oracle r (now_calls r))
            (Z.max 0 (now_oracle r (now_calls r) - DomainEvent.createdAt event))
            rendered)
         (mkRuntime (now_oracle r) (S (now_calls r))
                    (uuid_oracle r) (S (uuid_calls r))
                    (random_oracle r) (random_calls r)
                    (timers r) (written r) (JSON_stringify r)).
Proof.
  destruct s as [id name channel]. simpl.
  intros [-> | [-> | ->]]; eexists;
    unfold UserSubscriber_update, NotificationFactory.create, bind; simpl;
    reflexivity.
Qed.

Lemma UserSubscriber_update_unsupported (s : Subscriber.t)
    (event : DomainEvent.t) (r : Runtime) :
  ~ supported (Subscriber.channel s) ->
  update (new_UserSubscriber s) event r
  = Throw (Error ("Canal no soportado: " ++ Subscriber.channel s)) r.
Proof.
  destruct s as [id name channel]. unfold supported. simpl. intros H.
  unfold UserSubscriber_update, NotificationFactory.create, bind. simpl.
  destruct (channel =? "email") eqn:E1; [apply String.eqb_eq in E1; tauto|].
  destruct (channel =? "sms") eqn:E2; [apply String.eqb_eq in E2; tauto|].
  destruct (channel =? "push") eqn:E3; [apply String.eqb_eq in E3; tauto|].
  reflexivity.
Qed.

Lemma supported_dec (channel : ChannelType) :
  {supported channel} + {~ supported channel}.
Proof.
  unfold supported.
  destruct (string_dec channel "email"); [left; tauto|].
  destruct (string_dec channel "sms"); [left; tauto|].
  destruct (string_dec channel "push"); [left; tauto|].
  right. tauto.
Defined.

(** C2. Whenever the builder produces a notification (it does for every
    subscriber on a supported channel), its [sentAt] is the clock reading
    taken during the build and its [latencyMs] is
    [max(0, sentAt - event.createdAt)], hence never negative, also for an
    event created in the future of the render time. *)
Theorem C2_latency_clamped_at_zero (s : Subscriber.t) (event : DomainEvent.t)
    (r : Runtime) :
  (supported (Subscriber.channel s) ->
   exists m r', update (new_UserSubscriber s) event r = Ok m r')
  /\ (forall m r',
        update (new_UserSubscriber s) event r = Ok m r' ->
        NotificationMessage.sentAt m = now_oracle r (now_calls r)
        /\ NotificationMessage.latencyMs m
           = Z.max 0 (NotificationMessage.sentAt m - DomainEvent.createdAt event)
        /\ (0 <= NotificationMessage.latencyMs m)%Z).
Proof.
  split.
  - intros Hs. destruct (UserSubscriber_update_ok s event r Hs) as [x Hx].
    eauto.
  - intros m r' Hm. destruct (supported_dec (Subscriber.channel s)) as [Hs|Hs].
    + destruct (UserSubscriber_update_ok s event r Hs) as [x Hx].
      rewrite Hx in Hm. injection Hm as <- <-. simpl.
      repeat split. apply Z.le_max_l.
    + rewrite (UserSubscriber_update_unsupported s event r Hs) in Hm.
      discriminate.
Qed.

(** An event stamped 5000 rendered at clock reading 1000: the latency is 0. *)
Lemma C2_latency_clamped_at_zero_witness :
  exists m r',
    update (new_UserSubscriber Sample.ana) Sample.future Sample.rt = Ok m r'
    /\ NotificationMessage.sentAt m = 1000%Z
    /\ NotificationMessage.latencyMs m = 0%Z.
Proof.
  destruct (C2_latency_clamped_at_zero Sample.ana Sample.future Sample.rt)
    as [Hex Hall].
  destruct Hex as (m & r' & Hm); [left; reflexivity|].
  exists m, r'. destruct (Hall m r' Hm) as (Hs & Hl & _).
  repeat split; [exact Hm | exact Hs |].
  rewrite Hl, Hs. reflexivity.
Defined.

(** ** Fan-out *)

Section FanOut.
Context {O : Type} `{Observer O}.
Implicit Types (rest pre post : list O) (event : DomainEvent.t)
  (out : list NotificationMessage.t) (r : Runtime).

Lemma notifyAll_loop_app pre post event out r :
  EventBus.notifyAll_loop (pre ++ post)%list event out r
  = (out1 <- EventBus.notifyAll_loop pre event out ;;
     EventBus.notifyAll_loop post event out1) r.
Proof.
  revert out r. induction pre as [|obs pre IH]; intros out r; simpl.
  - reflexivity.
  - unfold bind. destruct (update obs event r) as [m r1|e r1].
    + rewrite IH. reflexivity.
    + reflexivity.
Qed.

Lemma notifyAll_loop_returns rest event :
  (forall obs r1, In obs rest -> exists m r2, update obs event r1 = Ok m r2) ->
  forall out r,
  exists batch r',
    EventBus.notifyAll_loop rest event out r = Ok (out ++ batch)%list r'
    /\ Forall2 (built_by event) rest batch.
Proof.
  induction rest as [|obs rest IH]; intros Hall out r; simpl.
  - exists [], r. rewrite app_nil_r. split; [reflexivity | constructor].
  - destruct (Hall obs r (or_introl eq_refl)) as (m & r1 & Hm).
    destruct (IH (fun o r1 Ho => Hall o r1 (or_intror Ho)) (out ++ [m])%list r1)
      as (batch & r' & Hb & Hf).
    exists (m :: batch), r'. split.
    + unfold bind. rewrite Hm, Hb, <- app_assoc. reflexivity.
    + constructor; [exists r, r1; exact Hm | exact Hf].
Qed.

Lemma notifyAll_loop_length rest event :
  forall out r batch r',
    EventBus.notifyAll_loop rest event out r = Ok batch r' ->
    length batch = length out + length rest.
Proof.
  induction rest as [|obs rest IH]; intros out r batch r'; simpl.
  - intros E. injection E as <- <-. lia.
  - unfold bind. destruct (update obs event r) as [m r1|e r1]; [|discriminate].
    intros E. apply IH in E. rewrite E, length_app. simpl. lia.
Qed.

Lemma notifyAll_returns (this : EventBus.t O) event r :
  (forall obs r1, In obs (JsMap.values (EventBus.observers this)) ->
                  exists m r2, update obs event r1 = Ok m r2) ->
  exists batch r',
    EventBus.notifyAll this event r = Ok batch r'
    /\ length batch = EventBus.count this
    /\ Forall2 (built_by event) (JsMap.values (EventBus.observers this)) batch.
Proof.
  intros Hall.
  destruct (notifyAll_loop_returns _ _ Hall [] r) as (batch & r' & Hb & Hf).
  exists batch, r'. repeat split; [exact Hb | | exact Hf].
  apply Forall2_length in Hf. unfold EventBus.count, JsMap.size.
  unfold JsMap.values in Hf. rewrite length_map in Hf. congruence.
Qed.

Lemma subscribe_new_id_goes_last (this : EventBus.t O) (id : string) (obs : O) :
  ~ In id (JsMap.keys (EventBus.observers this)) ->
  JsMap.values (EventBus.observers (EventBus.subscribe id obs this))
  = (JsMap.values (EventBus.observers this) ++ [obs])%list.
Proof.
  intros Hfresh. unfold EventBus.subscribe. simpl.
  rewrite set_fresh by assumption.
  unfold JsMap.values. rewrite map_app. reflexivity.
Qed.

(** [notifyAll] has no handler around a listener: when the listeners
    before one have returned and that one throws, the loop ends there. *)
Lemma notifyAll_aborts (this : EventBus.t O) event
    pre (obs : O) post out r r1 r2 (e : JsError) :
  JsMap.values (EventBus.observers this) = (pre ++ obs :: post)%list ->
  EventBus.notifyAll_loop pre event [] r = Ok out r1 ->
  update obs event r1 = Throw e r2 ->
  EventBus.notifyAll this event r = Throw e r2.
Proof.
  intros Hv Hpre Hobs. unfold EventBus.notifyAll.
  rewrite Hv, notifyAll_loop_app. unfold bind at 1. rewrite Hpre. simpl.
  unfold bind. rewrite Hobs. reflexivity.
Qed.
End FanOut.

Lemma built_by_UserSubscriber (event : DomainEvent.t) (obs : UserSubscriber)
    (m : NotificationMessage.t) :
  built_by event obs m ->
  NotificationMessage.userId m = Subscriber.id (subscriber obs)
  /\ NotificationMessage.eventId m = DomainEvent.id event.
Proof.
  destruct obs as [s]. intros (r1 & r2 & E). simpl.
  destruct (supported_dec (Subscriber.channel s)) as [Hs|Hs].
  - destruct (UserSubscriber_update_ok s event r1 Hs) as [x Hx].
    rewrite Hx in E. injection E as <- <-. auto.
  - rewrite (UserSubscriber_update_unsupported s event r1 Hs) in E.
    discriminate.
Qed.

(** C1. On a bus none of whose listeners throws for the event, [notifyAll]
    returns a batch with as many entries as [count()], the k-th entry
    being what the k-th listener of the map built. The map keeps its
    listeners in registration order: a listener registered under a new id
    comes after all the present ones. On the facade's bus, whose listeners
    are [UserSubscriber]s, no listener throws when every channel is one the
    factory knows, and the k-th entry of the batch carries the id of the
    k-th listener's subscriber and the id of the event. *)
Theorem C1_notifyAll_one_per_listener :
  (forall (O : Type) (H : Observer O) (this : EventBus.t O)
          (event : DomainEvent.t) (r : Runtime),
      (forall obs r1, In obs (JsMap.values (EventBus.observers this)) ->
                      exists m r2, update obs event r1 = Ok m r2) ->
      exists batch r',
        EventBus.notifyAll this event r = Ok batch r'
        /\ length batch = EventBus.count this
        /\ Forall2 (built_by event) (JsMap.values (EventBus.observers this)) batch)
  /\ (forall (O : Type) (this : EventBus.t O) (id : string) (obs : O),
        ~ In id (JsMap.keys (EventBus.observers this)) ->
        JsMap.values (EventBus.observers (EventBus.subscribe id obs this))
        = (JsMap.values (EventBus.observers this) ++ [obs])%list)
  /\ (forall (this : EventBus.t UserSubscriber) (event : DomainEvent.t)
             (r : Runtime),
        Forall (fun obs => supported (Subscriber.channel (subscriber obs)))
               (JsMap.values (EventBus.observers this)) ->
        exists batch r',
          EventBus.notifyAll this event r = Ok batch r'
          /\ length batch = EventBus.count this
          /\ map NotificationMessage.userId batch
             = map (fun obs => Subscriber.id (subscriber obs))
                   (JsMap.values (EventBus.observers this))
          /\ Forall (fun m => NotificationMessage.eventId m = DomainEvent.id event)
                    batch).
Proof.
  split; [|split].
  - intros O H this event r. apply notifyAll_returns.
  - intros O this id obs. apply subscribe_new_id_goes_last.
  - intros this event r Hch.
    destruct (notifyAll_returns this event r) as (batch & r' & Hb & Hl & Hf).
    { intros [s] r1 Hin. rewrite Forall_forall in Hch.
      destruct (UserSubscriber_update_ok s event r1 (Hch _ Hin)) as [x Hx].
      eauto. }
    exists batch, r'. split; [exact Hb | split; [exact Hl |]].
    clear Hb Hl Hch.
    induction Hf as [|obs m l batch Hm Hf [IH1 IH2]]; simpl.
    + split; [reflexivity | constructor].
    + destruct (built_by_UserSubscriber event obs m Hm) as [Hu He].
      split; [now rewrite Hu, IH1 | now constructor].
Qed.

(** Ana (email) and Bob (sms) on the bus: a batch of two, Ana's first. *)
Lemma C1_notifyAll_one_per_listener_witness :
  exists batch r',
    EventBus.notifyAll (Sample.bus_of [Sample.ana; Sample.bob]) Sample.past
                       Sample.rt = Ok batch r'
    /\ length batch = 2
    /\ map NotificationMessage.userId batch = ["a"; "b"]
    /\ Forall (fun m => NotificationMessage.eventId m = "e1") batch.
Proof.
  apply (proj2 (proj2 C1_notifyAll_one_per_listener)
           (Sample.bus_of [Sample.ana; Sample.bob]) Sample.past Sample.rt).
  simpl. constructor; [left; reflexivity|].
  constructor; [right; left; reflexivity | constructor].
Defined.

(** ** Publish *)

Lemma publishEvent_unfold (title : string) (type : EventType) (st : System) :
  publishEvent title type st
  = let event := published_event title type (runtime st) in
    match EventBus.notifyAll (bus (facade st)) event
                             (after_event_built (runtime st)) with
    | Ok messages r1 =>
        match AsyncDispatcher.dispatch messages BroadcastFn r1 with
        | Ok _ r2 => Ok event (mkSystem (facade st) r2)
        | Throw e r2 => Throw e (mkSystem (facade st) r2)
        end
    | Throw e r1 => Throw e (mkSystem (facade st) r1)
    end.
Proof.
  destruct st as [f r]. unfold publishEvent, bind, liftIO, gets. simpl.
  unfold after_event_built, published_event. simpl.
  destruct (EventBus.notifyAll _ _ _) as [messages r1|e r1]; simpl;
    [|reflexivity].
  destruct (AsyncDispatcher.dispatch _ _ _) as [[] r2|e r2]; reflexivity.
Qed.

(** [dispatch] only draws random numbers and queues timers, one per
    message, in the order of the batch. *)
Lemma dispatch_returns (deliver : DeliverFn) (messages : list NotificationMessage.t) :
  forall r, exists r',
    AsyncDispatcher.dispatch messages deliver r = Ok tt r'
    /\ map snd (timers r') = (map snd (timers r) ++ map (Thunk deliver) messages)%list
    /\ written r' = written r.
Proof.
  induction messages as [|m rest IH]; intros r; simpl.
  - exists r. rewrite app_nil_r. auto.
  - unfold bind. simpl.
    match goal with |- context [AsyncDispatcher.dispatch rest deliver ?r0] =>
      destruct (IH r0) as (r' & E & Ht & Hw) end.
    exists r'. rewrite E, Ht, Hw. simpl. rewrite map_app, <- app_assoc.
    simpl. auto.
Qed.

(** A [UserSubscriber] touches nothing but the clock and the id generator. *)
Lemma UserSubscriber_update_frame (this : UserSubscriber) (event : DomainEvent.t)
    (r : Runtime) :
  timers (final (update this event r)) = timers r
  /\ written (final (update this event r)) = written r.
Proof.
  destruct this as [s].
  destruct (supported_dec (Subscriber.channel s)) as [Hs|Hs].
  - destruct (UserSubscriber_update_ok s event r Hs) as [x ->]. simpl. auto.
  - rewrite (UserSubscriber_update_unsupported s event r Hs). simpl. auto.
Qed.

Lemma notifyAll_loop_frame (rest : list UserSubscriber) (event : DomainEvent.t) :
  forall out r,
    timers (final (EventBus.notifyAll_loop rest event out r)) = timers r
    /\ written (final (EventBus.notifyAll_loop rest event out r)) = written r.
Proof.
  induction rest as [|obs rest IH]; intros out r; simpl; [auto|].
  unfold bind. pose proof (UserSubscriber_update_frame obs event r) as [Ht Hw].
  destruct (update obs event r) as [m r1|e r1] eqn:E; simpl in *; rewrite E.
  - destruct (IH (out ++ [m])%list r1) as [Ht' Hw']. split; congruence.
  - auto.
Qed.

Lemma publishEvent_facade (title : string) (type : EventType) (st : System) :
  facade (final (publishEvent title type st)) = facade st.
Proof.
  rewrite publishEvent_unfold. simpl.
  destruct (EventBus.notifyAll _ _ _) as [messages r1|e r1]; [|reflexivity].
  destruct (AsyncDispatcher.dispatch _ _ _) as [[] r2|e r2]; reflexivity.
Qed.

Lemma publishEvent_written (title : string) (type : EventType) (st : System) :
  written (runtime (final (publishEvent title type st))) = written (runtime st).
Proof.
  rewrite publishEvent_unfold. simpl.
  pose proof (notifyAll_loop_frame
                (JsMap.values (EventBus.observers (bus (facade st))))
                (published_event title type (runtime st)) []
                (after_event_built (runtime st))) as [_ Hw].
  fold (EventBus.notifyAll (bus (facade st))
          (published_event title type (runtime st))
          (after_event_built (runtime st))) in Hw.
  destruct (EventBus.notifyAll _ _ _) as [messages r1|e r1] eqn:En; simpl in *.
  - destruct (dispatch_returns BroadcastFn messages r1) as (r2 & E & _ & Hw2).
    rewrite E. simpl. congruence.
  - assumption.
Qed.

(** C10. Whatever the state, the title and the type, and whether it returns
    or throws, the synchronous run of [publishEvent] ends with the facade
    it started with: the same registry, the same listeners on the bus, the
    same streaming clients. Nothing is written to a client during the call.
    When it returns, the event is the one built from the arguments, the id
    generator and the clock, and the timer queue has grown by one delivery
    per entry of the batch of [notifyAll], in batch order. *)
Theorem C10_publishEvent_only_reads (title : string) (type : EventType)
    (st : System) :
  let res := publishEvent title type st in
  facade (final res) = facade st
  /\ subscribers (facade (final res)) = subscribers (facade st)
  /\ bus (facade (final res)) = bus (facade st)
  /\ sseClients (facade (final res)) = sseClients (facade st)
  /\ written (runtime (final res)) = written (runtime st)
  /\ (forall event st',
        res = Ok event st' ->
        event = published_event title type (runtime st)
        /\ exists batch r1,
            EventBus.notifyAll (bus (facade st)) event
                               (after_event_built (runtime st)) = Ok batch r1
            /\ length batch = EventBus.count (bus (facade st))
            /\ map snd (timers (runtime st'))
               = (map snd (timers (runtime st))
                  ++ map (Thunk BroadcastFn) batch)%list).
Proof.
  intros res. subst res.
  rewrite (publishEvent_facade title type st), publishEvent_written.
  repeat split.
  - rewrite publishEvent_unfold in H. simpl in H.
    destruct (EventBus.notifyAll _ _ _) as [messages r1|e r1]; [|discriminate].
    destruct (AsyncDispatcher.dispatch _ _ _) as [[] r2|e r2]; [|discriminate].
    congruence.
  - rewrite publishEvent_unfold in H. simpl in H.
    pose proof (notifyAll_loop_frame
                  (JsMap.values (EventBus.observers (bus (facade st))))
                  (published_event title type (runtime st)) []
                  (after_event_built (runtime st))) as [Ht _].
    fold (EventBus.notifyAll (bus (facade st))
            (published_event title type (runtime st))
            (after_event_built (runtime st))) in Ht.
    destruct (EventBus.notifyAll (bus (facade st)) _ _) as [messages r1|e r1] eqn:En;
      [|discriminate].
    destruct (dispatch_returns BroadcastFn messages r1) as (r2 & E & Ht2 & _).
    rewrite E in H. injection H as <- <-.
    exists messages, r1. split; [exact En | split].
    + pose proof (notifyAll_loop_length _ _ _ _ _ _ En) as Hl. simpl in Hl.
      unfold EventBus.count, JsMap.size.
      unfold JsMap.values in Hl. rewrite length_map in Hl. exact Hl.
    + simpl in *. rewrite Ht2, Ht. reflexivity.
Qed.

(** Ana and Bob subscribed and two clients connected: a publish call leaves
    the facade as it was and queues two deliveries. *)
Lemma C10_publishEvent_only_reads_witness :
  exists event st',
    publishEvent "X" "CREATED" Sample.subscribed = Ok event st'
    /\ facade st' = facade Sample.subscribed
    /\ length (timers (runtime st')) = 2.
Proof.
  destruct (C10_publishEvent_only_reads "X" "CREATED" Sample.subscribed)
    as (Hf & _ & _ & _ & _ & Hok).
  exists (published_event "X" "CREATED" (runtime Sample.subscribed)),
         (final (publishEvent "X" "CREATED" Sample.subscribed)).
  assert (E : publishEvent "X" "CREATED" Sample.subscribed
              = Ok (published_event "X" "CREATED" (runtime Sample.subscribed))
                   (final (publishEvent "X" "CREATED" Sample.subscribed)))
    by (vm_compute; reflexivity).
  split; [exact E | split; [exact Hf |]].
  destruct (Hok _ _ E) as (_ & batch & r1 & _ & Hl & Ht).
  rewrite <- (length_map snd), Ht, length_app, !length_map, Hl.
  reflexivity.
Defined.

(** ** A listener that throws *)

(** C5 (as the code has it). [notifyAll] has no handler around a listener:
    when the listeners before one have returned and that one's build step
    throws, [notifyAll] throws the same exception from the state that
    listener left, the listeners after it are not run and no batch is
    returned; [publishEvent] does not catch it either: it throws the same
    exception, with the facade as it was. *)
Theorem C5_listener_failure_aborts_fanout :
  (forall (O : Type) (H : Observer O) (this : EventBus.t O)
          (event : DomainEvent.t) (pre : list O) (obs : O) (post : list O)
          (out : list NotificationMessage.t) (r r1 r2 : Runtime) (e : JsError),
      JsMap.values (EventBus.observers this) = (pre ++ obs :: post)%list ->
      EventBus.notifyAll_loop pre event [] r = Ok out r1 ->
      update obs event r1 = Throw e r2 ->
      EventBus.notifyAll this event r = Throw e r2)
  /\ (forall (st : System) (title : string) (type : EventType)
             (e : JsError) (r' : Runtime),
        EventBus.notifyAll (bus (facade st))
                           (published_event title type (runtime st))
                           (after_event_built (runtime st)) = Throw e r' ->
        publishEvent title type st = Throw e (mkSystem (facade st) r')).
Proof.
  split.
  - intros O H this event pre obs post out r r1 r2 e.
    apply notifyAll_aborts.
  - intros st title type e r' E. rewrite publishEvent_unfold. simpl.
    rewrite E. reflexivity.
Qed.

(** Ana (email), Fay (fax), Cy (push): Ana's notification is built, Fay's
    build throws, Cy's listener never runs. *)
Lemma C5_listener_failure_aborts_fanout_witness :
  EventBus.notifyAll Sample.flaky_bus Sample.past Sample.rt
  = Throw (Error "Canal no soportado: fax")
          (final (update (new_UserSubscriber Sample.ana) Sample.past Sample.rt)).
Proof.
  eapply (proj1 C5_listener_failure_aborts_fanout _ _
            Sample.flaky_bus Sample.past
            [new_UserSubscriber Sample.ana] (new_UserSubscriber Sample.fay)
            [new_UserSubscriber Sample.cy]);
    reflexivity.
Defined.

(** C5 as the specification states it fails: with Fay's listener between
    Ana's and Cy's, [notifyAll] returns no batch at all (it throws after
    drawing one id, Ana's), and [publishEvent] throws with no delivery
    scheduled. *)
Lemma C5_counterexample :
  (~ exists batch r',
       EventBus.notifyAll Sample.flaky_bus Sample.past Sample.rt = Ok batch r')
  /\ (exists r', EventBus.notifyAll Sample.flaky_bus Sample.past Sample.rt
                 = Throw (Error "Canal no soportado: fax") r'
                 /\ uuid_calls r' = 1)
  /\ (exists st', publishEvent "X" "CREATED" Sample.flaky
                  = Throw (Error "Canal no soportado: fax") st'
                  /\ timers (runtime st') = []).
Proof.
  split; [|split].
  - intros (batch & r' & E). vm_compute in E. discriminate.
  - exists (final (EventBus.notifyAll Sample.flaky_bus Sample.past Sample.rt)).
    split; vm_compute; reflexivity.
  - exists (final (publishEvent "X" "CREATED" Sample.flaky)).
    split; vm_compute; reflexivity.
Qed.

(** ** The facade's methods, unfolded *)

Lemma final_then_ret {S A} (c : M S A) (s : S) :
  final ((c ;; ret tt) s) = final (c s).
Proof. unfold bind, ret. destruct (c s); reflexivity. Qed.

Lemma subscribeUser_unfold (name : string) (channel : ChannelType) (st : System) :
  subscribeUser name channel st
  = let sub := Subscriber.mk (uuid_oracle (runtime st) (uuid_calls (runtime st)))
                             name channel in
    Ok sub
       (mkSystem
          (mkFacade
             (EventBus.subscribe (Subscriber.id sub) (new_UserSubscriber sub)
                                 (bus (facade st)))
             (dispatcher (facade st))
             (JsMap.set (Subscriber.id sub) sub (subscribers (facade st)))
             (sseClients (facade st)))
          (final (cryptoRandomId (runtime st)))).
Proof. destruct st as [[b d s c] r]. reflexivity. Qed.

Lemma unsubscribeUser_unfold (id : string) (st : System) :
  unsubscribeUser id st
  = Ok tt
       (mkSystem
          (mkFacade
             (EventBus.unsubscribe id (bus (facade st)))
             (dispatcher (facade st))
             (JsMap.delete id (subscribers (facade st)))
             (sseClients (facade st)))
          (runtime st)).
Proof. destruct st as [[b d s c] r]. reflexivity. Qed.

Lemma liftIO_facade {A} (c : IO A) (st : System) :
  facade (final (liftIO c st)) = facade st.
Proof. unfold liftIO. destruct (c (runtime st)); reflexivity. Qed.

Lemma broadcast_facade (m : NotificationMessage.t) (st : System) :
  facade (final (broadcast m st)) = facade st.
Proof. unfold broadcast, bind, gets. simpl. apply liftIO_facade. Qed.

Lemma fire_facade (k : nat) (st : System) :
  facade (final (fire k st)) = facade st.
Proof.
  unfold fire, bind, gets. simpl.
  destruct (nth_error (timers (runtime st)) k) as [[delay [[] m]]|];
    [|reflexivity].
  simpl. rewrite broadcast_facade. reflexivity.
Qed.

(** What a step does to the two id lists. *)
Lemma step_ids (op : Op) (st : System) :
  match op with
  | SubscribeUser name channel =>
      let id := uuid_oracle (runtime st) (uuid_calls (runtime st)) in
      listener_ids (final (step op st))
      = JsMap.keys (JsMap.set id (new_UserSubscriber (Subscriber.mk id name channel))
                              (EventBus.observers (bus (facade st))))
      /\ registry_ids (final (step op st))
         = JsMap.keys (JsMap.set id (Subscriber.mk id name channel)
                                 (subscribers (facade st)))
  | UnsubscribeUser id =>
      listener_ids (final (step op st))
      = JsMap.keys (JsMap.delete id (EventBus.observers (bus (facade st))))
      /\ registry_ids (final (step op st))
         = JsMap.keys (JsMap.delete id (subscribers (facade st)))
  | _ =>
      listener_ids (final (step op st)) = listener_ids st
      /\ registry_ids (final (step op st)) = registry_ids st
  end.
Proof.
  unfold listener_ids, registry_ids.
  destruct op as [name channel|id|title type|res|res|k]; unfold step.
  - unfold bind. rewrite subscribeUser_unfold. simpl. auto.
  - rewrite unsubscribeUser_unfold. simpl. auto.
  - unfold bind.
    pose proof (publishEvent_facade title type st) as Hf.
    destruct (publishEvent title type st); simpl in *; rewrite Hf; auto.
  - destruct st as [[b d s c] r]. simpl. auto.
  - destruct st as [[b d s c] r]. simpl. auto.
  - rewrite fire_facade. auto.
Qed.

(** ** The registry invariant *)

Lemma has_keys {A B} (m1 : JsMap.t A) (m2 : JsMap.t B) (k : string) :
  JsMap.keys m1 = JsMap.keys m2 -> JsMap.has k m1 = JsMap.has k m2.
Proof. unfold JsMap.has. now intros ->. Qed.

Lemma step_same_ids (op : Op) (st : System) :
  same_ids st -> same_ids (final (step op st)).
Proof.
  unfold same_ids. intros H id. pose proof (step_ids op st) as Hs.
  destruct op; cbv beta iota zeta in Hs; destruct Hs as [-> ->].
  - rewrite !In_keys_set. unfold listener_ids, registry_ids in H.
    rewrite H. tauto.
  - rewrite !In_keys_delete. unfold listener_ids, registry_ids in H.
    rewrite H. tauto.
  - apply H.
  - apply H.
  - apply H.
  - apply H.
Qed.

Lemma reachable_ids (st : System) :
  reachable st ->
  listener_ids st = registry_ids st /\ NoDup (listener_ids st).
Proof.
  induction 1 as [r|st op Hr [IHeq IHnd]].
  - split; [reflexivity | constructor].
  - pose proof (step_ids op st) as Hs. unfold listener_ids, registry_ids in *.
    destruct op; cbv beta iota zeta in Hs; destruct Hs as [-> ->].
    + split.
      * rewrite !keys_set, (has_keys _ _ _ IHeq), IHeq. reflexivity.
      * apply wf_set. exact IHnd.
    + split.
      * rewrite !keys_delete, IHeq. reflexivity.
      * apply wf_delete. exact IHnd.
    + auto.
    + auto.
    + auto.
    + auto.
Qed.

Lemma reachable_exec (ops : list Op) :
  forall st, reachable st -> reachable (exec ops st).
Proof.
  induction ops as [|op rest IH]; intros st Hr; simpl; [exact Hr|].
  apply IH, reachable_step, Hr.
Qed.

(** C3. In every state reached from the empty facade by subscribing,
    unsubscribing, publishing, connecting or disconnecting clients and
    firing timers, the bus and the registry hold the same ids (even in the
    same order) and no id twice; and from any state in which they hold the
    same ids, [subscribeUser], [unsubscribeUser] and [publishEvent] lead to
    a state in which they do. *)
Theorem C3_bus_and_registry_hold_the_same_ids :
  (forall st, reachable st ->
              same_ids st
              /\ listener_ids st = registry_ids st
              /\ NoDup (listener_ids st) /\ NoDup (registry_ids st))
  /\ (forall st name channel,
        same_ids st -> same_ids (final (subscribeUser name channel st)))
  /\ (forall st id, same_ids st -> same_ids (final (unsubscribeUser id st)))
  /\ (forall st title type,
        same_ids st -> same_ids (final (publishEvent title type st))).
Proof.
  split; [|split; [|split]].
  - intros st Hr. destruct (reachable_ids st Hr) as [Heq Hnd].
    split; [|split; [exact Heq | split; [exact Hnd | rewrite <- Heq; exact Hnd]]].
    unfold same_ids. intros id. rewrite Heq. tauto.
  - intros st name channel H.
    rewrite <- (final_then_ret (subscribeUser name channel)).
    exact (step_same_ids (SubscribeUser name channel) st H).
  - intros st id H. exact (step_same_ids (UnsubscribeUser id) st H).
  - intros st title type H.
    rewrite <- (final_then_ret (publishEvent title type)).
    exact (step_same_ids (PublishEvent title type) st H).
Qed.

(** After Ana and Bob subscribed and an event was published: ids [u0] and
    [u1] on both sides, and they stay equal when Bob leaves. *)
Lemma C3_bus_and_registry_hold_the_same_ids_witness :
  same_ids Sample.published
  /\ listener_ids Sample.published = ["u0"; "u1"]
  /\ same_ids (final (unsubscribeUser "u1" Sample.published)).
Proof.
  destruct C3_bus_and_registry_hold_the_same_ids as (Hreach & _ & Hunsub & _).
  assert (Hr : reachable Sample.published)
    by apply reachable_exec, reachable_exec, reachable_initial.
  destruct (Hreach _ Hr) as (Hsame & _).
  split; [exact Hsame | split; [vm_compute; reflexivity |]].
  apply Hunsub. exact Hsame.
Defined.

(** ** Counting subscribers *)

Lemma NoDup_remove_string (x : string) (l : list string) :
  NoDup l -> NoDup (remove string_dec x l).
Proof.
  induction 1 as [|y l Hy Hnd IH]; simpl; [constructor|].
  destruct (string_dec x y); [assumption|].
  constructor; [|assumption]. intros Hin. apply in_remove in Hin. tauto.
Qed.

Lemma length_remove_string (x : string) (l : list string) :
  NoDup l -> In x l -> S (length (remove string_dec x l)) = length l.
Proof.
  induction 1 as [|y l Hy Hnd IH]; simpl; [tauto|].
  destruct (string_dec x y) as [->|Hne].
  - intros _. now rewrite notin_remove.
  - intros [->|Hin]; [congruence|]. simpl. now rewrite IH.
Qed.

Lemma count_occ_one_In (l : list string) (x : string) :
  count_occ string_dec l x = 1 -> In x l.
Proof. intros H. apply (count_occ_In string_dec). lia. Qed.

Lemma exec_cons (op : Op) (ops : list Op) (st : System) :
  exec (op :: ops) st = exec ops (final (step op st)).
Proof. reflexivity. Qed.

(** The counting invariant: the subscribers the history owns are listeners,
    each exactly once, whatever else the bus holds. *)
Lemma count_after_history (ops : list Op) :
  forall own st,
    NoDup own ->
    (forall id, In id own -> count_occ string_dec (listener_ids st) id = 1) ->
    valid_history ops own st ->
    unsubscribes ops <= subscribes ops + length own
    /\ length (listener_ids (exec ops st)) + unsubscribes ops
       = length (listener_ids st) + subscribes ops.
Proof.
  induction ops as [|op rest IH]; intros own st Hnd Hown Hvalid.
  - simpl. lia.
  - rewrite exec_cons. pose proof (step_ids op st) as Hs.
    destruct op as [name channel|id|title type|res|res|k];
      cbv beta iota zeta in Hs; destruct Hs as [Hl _];
      cbn [valid_history] in Hvalid; cbn [subscribes unsubscribes].
    + assert (E : final (step (SubscribeUser name channel) st)
                  = final (subscribeUser name channel st))
        by apply (final_then_ret (subscribeUser name channel)).
      rewrite subscribeUser_unfold in Hvalid, E.
      cbv zeta in Hvalid, E. cbn [final Subscriber.id] in Hvalid, E.
      rewrite <- E in Hvalid. clear E. destruct Hvalid as [Hfresh Hvalid].
      set (id := uuid_oracle (runtime st) (uuid_calls (runtime st))) in *.
      unfold listener_ids in Hfresh. rewrite keys_set_fresh in Hl by exact Hfresh.
      fold (listener_ids st) in Hl, Hfresh.
      assert (Hnd' : NoDup (id :: own)).
      { constructor; [|exact Hnd]. intros Hin.
        apply Hfresh. apply count_occ_one_In. now apply Hown. }
      assert (Hown' : forall id', In id' (id :: own) ->
                count_occ string_dec
                  (listener_ids (final (step (SubscribeUser name channel) st))) id'
                = 1).
      { intros id' Hin. rewrite Hl, count_occ_app. simpl.
        destruct Hin as [<-|Hin].
        - destruct (string_dec id id); [|congruence].
          rewrite (proj1 (count_occ_not_In string_dec _ _) Hfresh). reflexivity.
        - destruct (string_dec id id') as [<-|_].
          + exfalso. apply Hfresh. apply count_occ_one_In. now apply Hown.
          + rewrite (Hown _ Hin). reflexivity. }
      destruct (IH _ _ Hnd' Hown' Hvalid) as [Hle Hlen].
      rewrite Hl, length_app in Hlen. simpl in *. lia.
    + destruct Hvalid as [Hin Hvalid].
      rewrite keys_delete in Hl. fold (listener_ids st) in Hl.
      assert (Hown' : forall id', In id' (remove string_dec id own) ->
                count_occ string_dec
                  (listener_ids (final (step (UnsubscribeUser id) st))) id'
                = 1).
      { intros id' Hin'. apply in_remove in Hin'. destruct Hin' as [Hin' Hne].
        rewrite Hl, count_occ_filter_other by exact Hne. now apply Hown. }
      destruct (IH _ _ (NoDup_remove_string id own Hnd) Hown' Hvalid)
        as [Hle Hlen].
      pose proof (length_remove_string id own Hnd Hin) as Hr.
      pose proof (length_filter_once _ _ (Hown _ Hin)) as Hf.
      rewrite Hl in Hlen. lia.
    + rewrite <- Hl in Hown. destruct (IH _ _ Hnd Hown Hvalid) as [Hle Hlen].
      rewrite Hl in Hlen. lia.
    + rewrite <- Hl in Hown. destruct (IH _ _ Hnd Hown Hvalid) as [Hle Hlen].
      rewrite Hl in Hlen. lia.
    + rewrite <- Hl in Hown. destruct (IH _ _ Hnd Hown Hvalid) as [Hle Hlen].
      rewrite Hl in Hlen. lia.
    + rewrite <- Hl in Hown. destruct (IH _ _ Hnd Hown Hvalid) as [Hle Hlen].
      rewrite Hl in Hlen. lia.
Qed.

Lemma count_listener_ids (st : System) :
  EventBus.count (bus (facade st)) = length (listener_ids st).
Proof. unfold EventBus.count, listener_ids. apply size_keys. Qed.

(** C4. From any state, along any history of the facade in which every
    [subscribeUser] draws an id that no present listener has and every
    [unsubscribeUser] names a subscriber created earlier in the history and
    not yet unsubscribed by it, there are at most as many unsubscribes (M)
    as subscribes (N), and [count()] ends N - M above where it started;
    publishing, connecting, disconnecting and delivering in between do not
    change it. *)
Theorem C4_count_is_subscribes_minus_unsubscribes (ops : list Op) (st : System) :
  valid_history ops [] st ->
  unsubscribes ops <= subscribes ops
  /\ EventBus.count (bus (facade (exec ops st)))
     = EventBus.count (bus (facade st)) + (subscribes ops - unsubscribes ops).
Proof.
  intros Hvalid.
  destruct (count_after_history ops [] st) as [Hle Hlen];
    [constructor | intros id [] | exact Hvalid |].
  simpl in Hle. rewrite !count_listener_ids. lia.
Qed.

(** The sample history on top of the two subscribers of the sample state:
    three subscribes, two unsubscribes, the count goes from 2 to 3. *)
Lemma C4_count_is_subscribes_minus_unsubscribes_witness :
  EventBus.count (bus (facade Sample.published)) = 2
  /\ 2 <= 3
  /\ EventBus.count (bus (facade (exec Sample.history Sample.published)))
     = 2 + (3 - 2).
Proof.
  split; [vm_compute; reflexivity|].
  apply (C4_count_is_subscribes_minus_unsubscribes Sample.history
           Sample.published).
  vm_compute. intuition (try discriminate; auto).
Defined.

(** ** Unsubscribing an unknown id *)

Lemma unsubscribeUser_absent (id : string) (st : System) :
  ~ In id (registry_ids st) -> ~ In id (listener_ids st) ->
  unsubscribeUser id st = Ok tt st.
Proof.
  unfold registry_ids, listener_ids. intros Hr Hl.
  rewrite unsubscribeUser_unfold. unfold EventBus.unsubscribe.
  rewrite !delete_absent by assumption.
  destruct st as [[[o] d s c] r]. reflexivity.
Qed.

(** C6 (as the code has it). In a state where the bus and the registry hold
    the same ids, [unsubscribeUser] of an id the registry does not hold
    returns normally and leaves the whole state as it was; the handler of
    [POST /api/unsubscribe] then answers 200 with [ok: true] and the
    unchanged total when the id is a non-empty string, and 400 when it is
    the empty string. *)
Theorem C6_unsubscribe_of_unknown_id (id : string) (st : System) :
  same_ids st ->
  ~ In id (registry_ids st) ->
  unsubscribeUser id st = Ok tt st
  /\ (id <> "" ->
      unsubscribe_handler (JsStr id) st
      = Ok (json (UnsubscribeBody true (EventBus.count (bus (facade st))))) st)
  /\ (id = "" ->
      unsubscribe_handler (JsStr id) st = Ok (bad_request "id es requerido") st).
Proof.
  intros Hsame Hr.
  assert (E : unsubscribeUser id st = Ok tt st).
  { apply unsubscribeUser_absent; [exact Hr|]. now rewrite (Hsame id). }
  split; [exact E | split].
  - intros Hne. unfold unsubscribe_handler. simpl.
    apply String.eqb_neq in Hne. rewrite Hne. simpl.
    unfold bind. rewrite E. reflexivity.
  - intros ->. reflexivity.
Qed.

(** The id [nobody] is unknown to the sample state: nothing changes and the
    answer is 200 with total 2. *)
Lemma C6_unsubscribe_of_unknown_id_witness :
  unsubscribeUser "nobody" Sample.published = Ok tt Sample.published
  /\ unsubscribe_handler (JsStr "nobody") Sample.published
     = Ok (json (UnsubscribeBody true 2)) Sample.published.
Proof.
  destruct (C6_unsubscribe_of_unknown_id "nobody" Sample.published)
    as (E & Hok & _).
  - intros id. vm_compute. tauto.
  - vm_compute. intuition discriminate.
  - split; [exact E|]. apply Hok. discriminate.
Defined.

(** C6 as the specification states it fails for the empty id: the registry
    of the sample state does not hold it, yet the handler does not report
    success but answers 400. *)
Lemma C6_counterexample :
  ~ In "" (registry_ids Sample.published)
  /\ unsubscribe_handler (JsStr "") Sample.published
     = Ok (bad_request "id es requerido") Sample.published
  /\ status (bad_request "id es requerido") = 400
  /\ ~ (exists total st',
          unsubscribe_handler (JsStr "") Sample.published
          = Ok (json (UnsubscribeBody true total)) st').
Proof.
  split; [vm_compute; intuition discriminate |].
  split; [reflexivity |]. split; [reflexivity |].
  intros (total & st' & E). discriminate E.
Qed.

(** ** Validation of a subscribe request *)

Lemma includes_channel (c : string) :
  includes [JsStr "email"; JsStr "sms"; JsStr "push"] (JsStr c) = true
  <-> supported c.
Proof.
  unfold includes, supported. cbn [existsb SameValueZero].
  rewrite !orb_true_iff, !String.eqb_eq. intuition congruence.
Qed.

(** C7. A subscribe request whose name is anything but a non-empty string
    (absent, in particular) or whose channel is anything but one of the
    strings email, sms and push is answered 400 with an error message
    naming the offending field, and the state after the call is the state
    before it: the same registry, the same bus, the same [count()]. *)
Theorem C7_invalid_subscribe_is_rejected (name channel : JsValue) (st : System) :
  (forall s, name = JsStr s -> s = "")
  \/ (forall c, channel = JsStr c -> ~ supported c) ->
  exists error,
    subscribe_handler name channel st = Ok (bad_request error) st
    /\ status (bad_request error) = 400
    /\ (error = "name es requerido"
        \/ error = "channel inválido (email|sms|push)").
Proof.
  intros Hbad.
  assert (Hname : forall s, s <> "" ->
            subscribe_handler (JsStr s) channel st
            = (if negb (truthy channel)
                  || negb (includes [JsStr "email"; JsStr "sms"; JsStr "push"]
                                    channel)
               then ret (bad_request "channel inválido (email|sms|push)")
               else match channel with
                    | JsStr c =>
                        sub <- subscribeUser (JsString.trim s) c ;;
                        total <- subscriberCount ;;
                        ret (json (SubscribeBody sub total))
                    | _ => throw (TypeError "channel is not a string")
                    end) st).
  { intros s Hs. unfold subscribe_handler. simpl.
    apply String.eqb_neq in Hs. rewrite Hs. reflexivity. }
  destruct name as [| |b|q|s|];
    try (exists "name es requerido"; repeat split; auto;
         unfold subscribe_handler; simpl; rewrite ?orb_true_r;
         try destruct b; reflexivity).
  destruct (string_dec s "") as [->|Hs].
  - exists "name es requerido". repeat split; auto.
  - destruct Hbad as [Hbad|Hbad]; [specialize (Hbad s eq_refl); contradiction|].
    exists "channel inválido (email|sms|push)". repeat split; auto.
    rewrite (Hname s Hs).
    destruct channel as [| |b|q|c|]; try reflexivity.
    + destruct b; reflexivity.
    + destruct (truthy (JsNumber q)); reflexivity.
    + destruct (includes _ (JsStr c)) eqn:E.
      * apply includes_channel in E. destruct (Hbad c eq_refl E).
      * rewrite orb_true_r. reflexivity.
Qed.

(** A request for the channel fax is rejected and the sample state stays. *)
Lemma C7_invalid_subscribe_is_rejected_witness :
  exists error,
    subscribe_handler (JsStr "Ana") (JsStr "fax") Sample.published
    = Ok (bad_request error) Sample.published
    /\ status (bad_request error) = 400
    /\ (error = "name es requerido"
        \/ error = "channel inválido (email|sms|push)").
Proof.
  apply (C7_invalid_subscribe_is_rejected (JsStr "Ana") (JsStr "fax")
           Sample.published).
  right. intros c E. injection E as <-. unfold supported.
  intuition discriminate.
Defined.

(** ** Trimming *)

Lemma append_empty_r (s : string) : s ++ "" = s.
Proof. induction s as [|a s IH]; simpl; [reflexivity | now rewrite IH]. Qed.

Lemma concat_cons (x : string) (xs : list string) :
  String.concat "" (x :: xs) = x ++ String.concat "" xs.
Proof. destruct xs; simpl; [now rewrite append_empty_r | reflexivity]. Qed.

Lemma trimStart_white_space (w r : string) :
  In w JsString.white_space ->
  JsString.trimStart (w ++ r) = JsString.trimStart r.
Proof.
  intros H. vm_compute in H.
  repeat (destruct H as [<-|H]; [reflexivity|]). destruct H.
Qed.

Lemma white_space_nonempty (w : string) :
  In w JsString.white_space -> w <> "".
Proof.
  intros H. vm_compute in H.
  repeat (destruct H as [<-|H]; [discriminate|]). destruct H.
Qed.

Lemma trim_whitespace_only (s : string) :
  JsString.whitespace_only s -> JsString.trim s = "".
Proof.
  intros (l & Hl & ->). unfold JsString.trim.
  assert (E : JsString.trimStart (String.concat "" l) = "").
  { induction Hl as [|w l Hw Hl IH]; [reflexivity|].
    rewrite concat_cons, trimStart_white_space by exact Hw. exact IH. }
  rewrite E. reflexivity.
Qed.

(** C9. The name check of [POST /api/subscribe] rejects exactly the values
    that are not non-empty strings; a non-empty name made of white space
    only (with a supported channel) therefore passes, and since [trim] is
    applied after the check the subscriber that is created, returned and
    stored in the registry under its id has the empty name. *)
Theorem C9_whitespace_name_is_stored_empty (s : string) (channel : ChannelType)
    (st : System) :
  s <> "" ->
  JsString.whitespace_only s ->
  supported channel ->
  (exists sub st',
      subscribe_handler (JsStr s) (JsStr channel) st
      = Ok (json (SubscribeBody sub (EventBus.count (bus (facade st'))))) st'
      /\ Subscriber.name sub = ""
      /\ In (Subscriber.id sub, sub) (subscribers (facade st')))
  /\ (forall name : JsValue,
        subscribe_handler name (JsStr channel) st
        = Ok (bad_request "name es requerido") st
        <-> (forall s', name = JsStr s' -> s' = "")).
Proof.
  intros Hs Hws Hch.
  assert (Hpass : forall s', s' <> "" ->
            subscribe_handler (JsStr s') (JsStr channel) st
            = (sub <- subscribeUser (JsString.trim s') channel ;;
               total <- subscriberCount ;;
               ret (json (SubscribeBody sub total))) st).
  { intros s' Hs'. unfold subscribe_handler. cbn [truthy typeof].
    apply String.eqb_neq in Hs'. rewrite Hs'.
    assert (Hc : (channel =? "") = false)
      by (apply String.eqb_neq; destruct Hch as [->|[->| ->]]; discriminate).
    rewrite Hc. apply includes_channel in Hch. rewrite Hch. reflexivity. }
  split.
  - rewrite (Hpass s Hs). unfold bind. rewrite subscribeUser_unfold.
    cbv zeta. rewrite (trim_whitespace_only s Hws).
    eexists. eexists. split; [reflexivity|]. split; [reflexivity|].
    simpl. apply In_set.
  - intros name. split.
    + intros E s' ->. destruct (string_dec s' "") as [Hs'|Hs']; [exact Hs'|].
      rewrite (Hpass s' Hs') in E. unfold bind in E.
      rewrite subscribeUser_unfold in E. discriminate.
    + intros Hn. destruct name as [| |b|q|s'|]; try reflexivity.
      * destruct b; reflexivity.
      * unfold subscribe_handler. simpl. rewrite orb_true_r. reflexivity.
      * rewrite (Hn s' eq_refl). reflexivity.
Qed.

(** A space, a no-break space and a line feed, channel push: accepted, and
    the stored name is empty. *)
Lemma C9_whitespace_name_is_stored_empty_witness :
  exists sub st',
    subscribe_handler (JsStr Sample.blank) (JsStr "push") Sample.published
    = Ok (json (SubscribeBody sub (EventBus.count (bus (facade st'))))) st'
    /\ Subscriber.name sub = ""
    /\ In (Subscriber.id sub, sub) (subscribers (facade st')).
Proof.
  apply (C9_whitespace_name_is_stored_empty Sample.blank "push" Sample.published).
  - discriminate.
  - exists [JsString.bytes [32]; JsString.bytes [194; 160]; JsString.bytes [10]].
    split; [|reflexivity].
    repeat constructor; vm_compute; tauto.
  - right. right. reflexivity.
Defined.

(** ** Delivery *)

Lemma broadcast_loop_writes (data : string) (clients : list Response) :
  forall r, exists r',
    broadcast_loop clients data r = Ok tt r'
    /\ written r' = (written r ++ flat_map (notification_chunks data) clients)%list
    /\ timers r' = timers r.
Proof.
  induction clients as [|client rest IH]; intros r; simpl.
  - exists r. rewrite app_nil_r. auto.
  - unfold bind. simpl.
    match goal with |- context [broadcast_loop rest data ?r0] =>
      destruct (IH r0) as (r' & E & Hw & Ht) end.
    exists r'. rewrite E, Hw, Ht. simpl. rewrite <- !app_assoc. simpl. auto.
Qed.

Lemma broadcast_writes (m : NotificationMessage.t) (st : System) :
  exists r',
    broadcast m st = Ok tt (mkSystem (facade st) r')
    /\ written r'
       = (written (runtime st)
          ++ flat_map (notification_chunks (JSON_stringify (runtime st) m))
                      (sseClients (facade st)))%list
    /\ timers r' = timers (runtime st).
Proof.
  unfold broadcast, bind, gets, liftIO.
  destruct (broadcast_loop_writes (JSON_stringify (runtime st) m)
              (sseClients (facade st)) (runtime st)) as (r' & E & Hw & Ht).
  exists r'. rewrite E. auto.
Qed.

Lemma written_to_app (c : Response) (r : Runtime) (l : list (Response * string)) :
  map snd (filter (fun w => Nat.eqb (fst w) c) (written r ++ l)%list)
  = (written_to c r ++ map snd (filter (fun w => Nat.eqb (fst w) c) l))%list.
Proof. unfold written_to. now rewrite filter_app, map_app. Qed.

Lemma chunks_of_others (c : Response) (data : string) (clients : list Response) :
  ~ In c clients ->
  filter (fun w => Nat.eqb (fst w) c) (flat_map (notification_chunks data) clients)
  = [].
Proof.
  induction clients as [|client rest IH]; simpl; intros H; [reflexivity|].
  destruct (Nat.eqb client c) eqn:E.
  - apply Nat.eqb_eq in E. tauto.
  - apply IH. tauto.
Qed.

(** A step other than the client's own reconnection neither lets a client
    that is not connected back in nor writes to it. *)
Lemma step_spares_disconnected (c : Response) (op : Op) (st : System) :
  op <> AddSseClient c ->
  ~ In c (sseClients (facade st)) ->
  ~ In c (sseClients (facade (final (step op st))))
  /\ written_to c (runtime (final (step op st))) = written_to c (runtime st).
Proof.
  intros Hop Hc. destruct op as [name channel|id|title type|res|res|k].
  - unfold step. rewrite final_then_ret, subscribeUser_unfold. simpl. auto.
  - unfold step. rewrite unsubscribeUser_unfold. simpl. auto.
  - unfold step. rewrite final_then_ret, publishEvent_facade.
    unfold written_to. rewrite publishEvent_written. auto.
  - destruct st as [[b d s cl] r]. simpl in *. split; [|reflexivity].
    unfold JsSet.add. destruct (JsSet.has res cl); [exact Hc|].
    rewrite in_app_iff. simpl. intros [H|[H|[]]]; [tauto|].
    apply Hop. now subst.
  - destruct st as [[b d s cl] r]. simpl in *. split; [|reflexivity].
    unfold JsSet.delete. rewrite filter_In. tauto.
  - unfold step. rewrite fire_facade. split; [exact Hc|].
    unfold fire, bind, gets. simpl.
    destruct (nth_error (timers (runtime st)) k) as [[delay [[] m]]|];
      [|reflexivity].
    simpl.
    match goal with |- context [broadcast m ?st0] =>
      destruct (broadcast_writes m st0) as (r' & E & Hw & _) end.
    rewrite E. simpl in *. unfold written_to at 1. rewrite Hw.
    match goal with |- context [written ?r0] =>
      change (written r0) with (written (runtime st)) end.
    rewrite written_to_app, chunks_of_others by exact Hc.
    simpl. now rewrite app_nil_r.
Qed.

Lemma exec_spares_disconnected (c : Response) (ops : list Op) :
  forall st,
    (forall op, In op ops -> op <> AddSseClient c) ->
    ~ In c (sseClients (facade st)) ->
    written_to c (runtime (exec ops st)) = written_to c (runtime st).
Proof.
  induction ops as [|op rest IH]; intros st Hops Hc; [reflexivity|].
  rewrite exec_cons.
  destruct (step_spares_disconnected c op st (Hops op (or_introl eq_refl)) Hc)
    as [Hc' Hw].
  rewrite IH; [exact Hw | intros o Ho; apply Hops; now right | exact Hc'].
Qed.

(** C8. Once a streaming client has been removed from the client set,
    nothing is written to it any more, whatever follows short of adding that
    very client again: timers scheduled before the removal may fire in any
    order, further events may be published and delivered. For when a timer
    fires, the notification is written to the clients that are in the set
    at that moment, each once, and to nobody else. *)
Theorem C8_delivery_goes_to_the_clients_of_delivery_time
    (c : Response) (ops : list Op) (st : System) :
  (forall op, In op ops -> op <> AddSseClient c) ->
  written_to c (runtime (exec ops (final (removeSseClient c st))))
  = written_to c (runtime st)
  /\ (forall k delay m,
        nth_error (timers (runtime st)) k = Some (delay, Thunk BroadcastFn m) ->
        written (runtime (final (fire k st)))
        = (written (runtime st)
           ++ flat_map (notification_chunks (JSON_stringify (runtime st) m))
                       (sseClients (facade st)))%list).
Proof.
  intros Hops. split.
  - rewrite exec_spares_disconnected.
    + destruct st as [[b d s cl] r]. reflexivity.
    + exact Hops.
    + destruct st as [[b d s cl] r]. simpl. unfold JsSet.delete.
      rewrite filter_In, Nat.eqb_refl. simpl. intros [_ H]. discriminate.
  - intros k delay m Hk. unfold fire, bind, gets. simpl. rewrite Hk. simpl.
    match goal with |- context [broadcast m ?st0] =>
      destruct (broadcast_writes m st0) as (r' & E & Hw & _) end.
    rewrite E. simpl. exact Hw.
Qed.

(** In the sample state two deliveries are pending and clients 1 and 2 are
    connected. Client 1 disconnects; both timers fire: client 1 has been
    written nothing, client 2 four chunks. *)
Lemma C8_delivery_goes_to_the_clients_of_delivery_time_witness :
  length (timers (runtime Sample.published)) = 2
  /\ written_to 1 (runtime (exec [Fire 1; Fire 0]
                             (final (removeSseClient 1 Sample.published))))
     = []
  /\ length (written_to 2 (runtime (exec [Fire 1; Fire 0]
                             (final (removeSseClient 1 Sample.published)))))
     = 4.
Proof.
  split; [vm_compute; reflexivity|]. split; [|vm_compute; reflexivity].
  destruct (C8_delivery_goes_to_the_clients_of_delivery_time
              1 [Fire 1; Fire 0] Sample.published) as [E _].
  - intros op [<-|[<-|[]]]; discriminate.
  - rewrite E. vm_compute. reflexivity.
Defined.

(** * Further properties *)

(** ** Strategies, factory and builder *)

Lemma append_assoc (a b c : string) : (a ++ b) ++ c = a ++ b ++ c.
Proof. induction a as [|x a IH]; simpl; [reflexivity | now rewrite IH]. Qed.

(** The message a [UserSubscriber] builds, field by field, with the text
    of the strategy the factory chose for its channel. *)
Lemma UserSubscriber_update_returns (s : Subscriber.t) (event : DomainEvent.t)
    (r r' : Runtime) (m : NotificationMessage.t) :
  update (new_UserSubscriber s) event r = Ok m r' ->
  r' = after_builds 1 r
  /\ kth_notification event r (new_UserSubscriber s) 0 m
  /\ ((Subscriber.channel s = "email"
       /\ NotificationMessage.rendered m
          = send EmailStrategy (Subscriber.name s) event)
      \/ (Subscriber.channel s = "sms"
          /\ NotificationMessage.rendered m
             = send SmsStrategy (Subscriber.name s) event)
      \/ (Subscriber.channel s = "push"
          /\ NotificationMessage.rendered m
             = send PushStrategy (Subscriber.name s) event)).
Proof.
  destruct s as [id name channel]. simpl.
  unfold UserSubscriber_update, NotificationFactory.create, bind,
    after_builds, kth_notification. simpl.
  destruct (channel =? "email") eqn:E1;
    [|destruct (channel =? "sms") eqn:E2;
      [|destruct (channel =? "push") eqn:E3]];
    simpl; intros E; try discriminate; injection E as <- <-; simpl;
    rewrite !Nat.add_0_r, !Nat.add_1_r;
    (split; [reflexivity|]); (split; [repeat split|]).
  - left. apply String.eqb_eq in E1. auto.
  - right. left. apply String.eqb_eq in E2. auto.
  - right. right. apply String.eqb_eq in E3. auto.
Qed.

(** X1. The text of a notification names its subscriber and its event: the
    subscriber's name, the event's title and the event's type all occur in
    [rendered], whatever the channel. *)
Theorem X1_rendered_names_subscriber_and_event (s : Subscriber.t)
    (event : DomainEvent.t) (m : NotificationMessage.t) :
  built_by event (new_UserSubscriber s) m ->
  contains (NotificationMessage.rendered m) (Subscriber.name s)
  /\ contains (NotificationMessage.rendered m) (DomainEvent.title event)
  /\ contains (NotificationMessage.rendered m) (DomainEvent.type event).
Proof.
  intros (r1 & r2 & E).
  destruct (UserSubscriber_update_returns s event r1 r2 m E) as (_ & _ & Hr).
  assert (H : exists prefix,
             NotificationMessage.rendered m
             = prefix ++ Subscriber.name s ++ evento event).
  { destruct Hr as [[_ ->]|[[_ ->]|[_ ->]]]; eexists; reflexivity. }
  destruct H as [prefix ->]. unfold contains, evento.
  split; [|split].
  - exists prefix. eexists. reflexivity.
  - exists (prefix ++ Subscriber.name s ++ ": Evento " ++ JsString.dquote).
    eexists. rewrite !append_assoc. reflexivity.
  - exists (prefix ++ Subscriber.name s ++ ": Evento " ++ JsString.dquote
            ++ DomainEvent.title event ++ JsString.dquote ++ " (").
    exists ")". rewrite !append_assoc. reflexivity.
Qed.

(** Ana's e-mail about the event X: her name, X and CREATED are in it. *)
Lemma X1_rendered_names_subscriber_and_event_witness :
  update (new_UserSubscriber Sample.ana) Sample.past Sample.rt
  = Ok (Scenario.mail_to "a") (after_builds 1 Sample.rt)
  /\ contains (NotificationMessage.rendered (Scenario.mail_to "a")) "Ana"
  /\ contains (NotificationMessage.rendered (Scenario.mail_to "a")) "X"
  /\ contains (NotificationMessage.rendered (Scenario.mail_to "a")) "CREATED".
Proof.
  split; [vm_compute; reflexivity|].
  apply (X1_rendered_names_subscriber_and_event Sample.ana Sample.past).
  exists Sample.rt, (after_builds 1 Sample.rt). vm_compute. reflexivity.
Defined.

(** X2. A build either throws at once or costs one clock reading and one
    id: on a channel the factory does not know, [update] throws
    [Canal no soportado: <channel>] with the runtime untouched (no clock
    reading, no id drawn); on a known channel it returns the message whose
    id is the id drawn and whose [sentAt] is the reading taken, copies the
    subscriber's and the event's fields, and changes nothing else. *)
Theorem X2_update_throws_at_once_or_costs_one_reading_and_one_id
    (s : Subscriber.t) (event : DomainEvent.t) (r : Runtime) :
  (~ supported (Subscriber.channel s) ->
   update (new_UserSubscriber s) event r
   = Throw (Error ("Canal no soportado: " ++ Subscriber.channel s)) r)
  /\ (supported (Subscriber.channel s) ->
      exists m,
        update (new_UserSubscriber s) event r = Ok m (after_builds 1 r)
        /\ kth_notification event r (new_UserSubscriber s) 0 m).
Proof.
  split.
  - apply UserSubscriber_update_unsupported.
  - intros Hs. destruct (UserSubscriber_update_ok s event r Hs) as [x Hx].
    destruct (UserSubscriber_update_returns s event r _ _ Hx) as (Hr & Hk & _).
    eexists. rewrite Hr in Hx. split; [exact Hx | exact Hk].
Qed.

(** Fay's channel is fax: the build throws and the sample runtime stays. *)
Lemma X2_update_throws_at_once_or_costs_one_reading_and_one_id_witness :
  update (new_UserSubscriber Sample.fay) Sample.past Sample.rt
  = Throw (Error "Canal no soportado: fax") Sample.rt.
Proof.
  apply (proj1 (X2_update_throws_at_once_or_costs_one_reading_and_one_id
                  Sample.fay Sample.past Sample.rt)).
  unfold supported. simpl. intuition discriminate.
Defined.

(** X3. The three strategies never render the same text: two notifications
    with the same [rendered] were built for the same channel, whoever the
    subscribers and whatever the events. *)
Theorem X3_rendered_tells_the_channel (s1 s2 : Subscriber.t)
    (e1 e2 : DomainEvent.t) (m1 m2 : NotificationMessage.t) :
  built_by e1 (new_UserSubscriber s1) m1 ->
  built_by e2 (new_UserSubscriber s2) m2 ->
  NotificationMessage.rendered m1 = NotificationMessage.rendered m2 ->
  NotificationMessage.channel m1 = NotificationMessage.channel m2.
Proof.
  intros (r1 & r1' & E1) (r2 & r2' & E2) Heq.
  destruct (UserSubscriber_update_returns s1 e1 r1 r1' m1 E1) as (_ & K1 & H1).
  destruct (UserSubscriber_update_returns s2 e2 r2 r2' m2 E2) as (_ & K2 & H2).
  destruct K1 as (_ & _ & _ & -> & _). destruct K2 as (_ & _ & _ & -> & _).
  simpl.
  destruct H1 as [[C1 R1]|[[C1 R1]|[C1 R1]]];
    destruct H2 as [[C2 R2]|[[C2 R2]|[C2 R2]]];
    rewrite C1, C2; try reflexivity;
    rewrite R1, R2 in Heq; simpl in Heq; discriminate.
Qed.

(** The e-mails to Ana and to her namesake under another id have the same
    text, and the same channel. *)
Lemma X3_rendered_tells_the_channel_witness :
  NotificationMessage.rendered (Scenario.mail_to "a")
  = NotificationMessage.rendered (Scenario.mail_to "z")
  /\ NotificationMessage.channel (Scenario.mail_to "a")
     = NotificationMessage.channel (Scenario.mail_to "z").
Proof.
  split; [reflexivity|].
  apply (X3_rendered_tells_the_channel
           Sample.ana Scenario.namesake Sample.past Sample.past).
  - exists Sample.rt, (after_builds 1 Sample.rt). vm_compute. reflexivity.
  - exists Sample.rt, (after_builds 1 Sample.rt). vm_compute. reflexivity.
  - reflexivity.
Defined.

(** ** The bus as a map of listeners *)

Section BusLaws.
Context {O : Type}.
Implicit Types (m : JsMap.t O) (this : EventBus.t O) (k id : string) (obs : O).

Lemma set_only_value m k obs :
  JsMap.wf m -> forall o, In (k, o) (JsMap.set k obs m) -> o = obs.
Proof.
  unfold JsMap.wf, JsMap.keys.
  induction m as [|[k' v'] rest IH]; simpl; intros Hwf o Hin.
  - destruct Hin as [E|[]]. congruence.
  - inversion Hwf as [|? ? Hk' Hrest]; subst.
    destruct (String.eqb k' k) eqn:E.
    + apply String.eqb_eq in E. subst k'.
      destruct Hin as [E'|Hin]; [congruence|].
      exfalso. apply Hk'. apply (in_map fst) in Hin. exact Hin.
    + destruct Hin as [E'|Hin].
      * apply String.eqb_neq in E. congruence.
      * now apply IH.
Qed.

Lemma set_other_entries m k obs k' o :
  k' <> k -> (In (k', o) (JsMap.set k obs m) <-> In (k', o) m).
Proof.
  intros Hne. induction m as [|[k0 v0] rest IH]; simpl.
  - split; [intros [E|[]]; congruence | tauto].
  - destruct (String.eqb k0 k) eqn:E; simpl.
    + apply String.eqb_eq in E. subst k0.
      split; (intros [E'|Hin]; [congruence | now right]).
    + rewrite IH. tauto.
Qed.

Lemma delete_set_fresh m k obs :
  ~ In k (JsMap.keys m) -> JsMap.delete k (JsMap.set k obs m) = m.
Proof.
  intros Hfresh. rewrite set_fresh by exact Hfresh.
  unfold JsMap.delete. rewrite filter_app. simpl.
  rewrite String.eqb_refl. simpl. rewrite app_nil_r.
  now apply delete_absent.
Qed.

Lemma delete_delete m k : JsMap.delete k (JsMap.delete k m) = JsMap.delete k m.
Proof.
  apply delete_absent. rewrite In_keys_delete. tauto.
Qed.

(** X4. Registering a listener under an id the bus already holds replaces
    the listener in place: the ids keep their order, [count()] does not
    change, the new listener is the only one under that id, and the
    listeners under the other ids are the ones that were there. *)
Theorem X4_subscribe_known_id_replaces_listener this id obs :
  JsMap.wf (EventBus.observers this) ->
  In id (JsMap.keys (EventBus.observers this)) ->
  let after := EventBus.subscribe id obs this in
  JsMap.keys (EventBus.observers after) = JsMap.keys (EventBus.observers this)
  /\ EventBus.count after = EventBus.count this
  /\ In (id, obs) (EventBus.observers after)
  /\ (forall o, In (id, o) (EventBus.observers after) -> o = obs)
  /\ (forall k o, k <> id ->
        (In (k, o) (EventBus.observers after)
         <-> In (k, o) (EventBus.observers this))).
Proof.
  intros Hwf Hin after. subst after. unfold EventBus.subscribe, EventBus.count.
  simpl. apply has_In in Hin.
  assert (Hk : JsMap.keys (JsMap.set id obs (EventBus.observers this))
               = JsMap.keys (EventBus.observers this))
    by now rewrite keys_set, Hin.
  split; [exact Hk|]. split; [now rewrite !size_keys, Hk|].
  split; [apply In_set|]. split.
  - now apply set_only_value.
  - intros k o Hne. now apply set_other_entries.
Qed.

(** X5. Unsubscribing undoes a registration under a new id and is
    idempotent: after [subscribe] under a fresh id, [unsubscribe] gives the
    bus back as it was; a second [unsubscribe] of the same id changes
    nothing; and after [unsubscribe] the id is gone while every other id is
    held exactly when it was before. *)
Theorem X5_unsubscribe_undoes_subscribe this id obs :
  (~ In id (JsMap.keys (EventBus.observers this)) ->
   EventBus.unsubscribe id (EventBus.subscribe id obs this) = this)
  /\ EventBus.unsubscribe id (EventBus.unsubscribe id this)
     = EventBus.unsubscribe id this
  /\ ~ In id (JsMap.keys (EventBus.observers (EventBus.unsubscribe id this)))
  /\ (forall k, k <> id ->
        (In k (JsMap.keys (EventBus.observers (EventBus.unsubscribe id this)))
         <-> In k (JsMap.keys (EventBus.observers this)))).
Proof.
  unfold EventBus.unsubscribe, EventBus.subscribe. simpl.
  split; [|split; [|split]].
  - intros Hfresh. rewrite delete_set_fresh by exact Hfresh.
    now destruct this.
  - now rewrite delete_delete.
  - rewrite In_keys_delete. tauto.
  - intros k Hne. rewrite In_keys_delete. tauto.
Qed.
End BusLaws.

(** Ann registered under Ana's id on the bus of Ana and Bob: still two
    listeners, ids [a] and [b], and the one under [a] is Ann's. *)
Lemma X4_subscribe_known_id_replaces_listener_witness :
  EventBus.count (EventBus.subscribe "a" (new_UserSubscriber Scenario.ann)
                    (Sample.bus_of [Sample.ana; Sample.bob])) = 2
  /\ forall o,
       In ("a", o)
          (EventBus.observers
             (EventBus.subscribe "a" (new_UserSubscriber Scenario.ann)
                (Sample.bus_of [Sample.ana; Sample.bob]))) ->
       o = new_UserSubscriber Scenario.ann.
Proof.
  destruct (X4_subscribe_known_id_replaces_listener
              (Sample.bus_of [Sample.ana; Sample.bob]) "a"
              (new_UserSubscriber Scenario.ann))
    as (_ & Hc & _ & Ho & _).
  - unfold JsMap.wf. simpl. repeat constructor; simpl; intuition discriminate.
  - simpl. auto.
  - split; [rewrite Hc; reflexivity | exact Ho].
Defined.

(** Cy registers on the bus of Ana and Bob and leaves again. *)
Lemma X5_unsubscribe_undoes_subscribe_witness :
  EventBus.unsubscribe "c"
    (EventBus.subscribe "c" (new_UserSubscriber Sample.cy)
       (Sample.bus_of [Sample.ana; Sample.bob]))
  = Sample.bus_of [Sample.ana; Sample.bob].
Proof.
  apply (proj1 (X5_unsubscribe_undoes_subscribe
                  (Sample.bus_of [Sample.ana; Sample.bob]) "c"
                  (new_UserSubscriber Sample.cy))).
  simpl. intuition discriminate.
Defined.

(** ** Subscribing and unsubscribing through the facade *)

(** X6. [subscribeUser] returns the subscriber it stored: the given name
    and channel under the id drawn from the generator, found in the
    registry under that id afterwards; it costs that one id and leaves
    clock, timers, output and client set alone. When no listener and no
    registry entry has that id yet, [count()] goes up by one, the new
    subscriber is last in [listSubscribers()], and [unsubscribeUser] of the
    returned id gives the facade back as it was. *)
Theorem X6_subscribeUser_stores_what_it_returns (name : string)
    (channel : ChannelType) (st : System) :
  let id := uuid_oracle (runtime st) (uuid_calls (runtime st)) in
  let sub := Subscriber.mk id name channel in
  exists st',
    subscribeUser name channel st = Ok sub st'
    /\ In (id, sub) (subscribers (facade st'))
    /\ In (id, new_UserSubscriber sub) (EventBus.observers (bus (facade st')))
    /\ sseClients (facade st') = sseClients (facade st)
    /\ runtime st' = final (cryptoRandomId (runtime st))
    /\ (~ In id (listener_ids st) -> ~ In id (registry_ids st) ->
        EventBus.count (bus (facade st')) = S (EventBus.count (bus (facade st)))
        /\ JsMap.values (subscribers (facade st'))
           = (JsMap.values (subscribers (facade st)) ++ [sub])%list
        /\ facade (final (unsubscribeUser id st')) = facade st).
Proof.
  intros id sub. rewrite subscribeUser_unfold. cbv zeta. fold id. fold sub.
  eexists. split; [reflexivity|]. cbn [facade runtime subscribers bus sseClients
    Subscriber.id]. cbn [sub Subscriber.id].
  split; [apply In_set|]. split; [apply In_set|].
  split; [reflexivity|]. split; [reflexivity|].
  intros Hl Hr. unfold listener_ids in Hl. unfold registry_ids in Hr.
  split; [|split].
  - unfold EventBus.count, EventBus.subscribe. simpl.
    rewrite !size_keys, keys_set_fresh by exact Hl.
    rewrite length_app. simpl. lia.
  - rewrite set_fresh by exact Hr. unfold JsMap.values. now rewrite map_app.
  - rewrite unsubscribeUser_unfold. simpl.
    unfold EventBus.unsubscribe, EventBus.subscribe. simpl.
    rewrite !delete_set_fresh by assumption.
    destruct st as [[[o] d s c] r]. reflexivity.
Qed.

(** Cy subscribes in the sample state under the id [u5], as third
    subscriber, and unsubscribing [u5] restores the facade. *)
Lemma X6_subscribeUser_stores_what_it_returns_witness :
  exists st',
    subscribeUser "Cy" "push" Sample.published
    = Ok (Subscriber.mk "u5" "Cy" "push") st'
    /\ EventBus.count (bus (facade st')) = 3
    /\ facade (final (unsubscribeUser "u5" st')) = facade Sample.published.
Proof.
  destruct (X6_subscribeUser_stores_what_it_returns "Cy" "push" Sample.published)
    as (st' & E & _ & _ & _ & _ & Hfresh).
  exists st'. split; [exact E|].
  destruct Hfresh as (Hc & _ & Hu).
  - vm_compute. intuition discriminate.
  - vm_compute. intuition discriminate.
  - split; [rewrite Hc; reflexivity | exact Hu].
Defined.

(** ** What a fan-out costs and what it builds *)

Lemma after_builds_0 (r : Runtime) : after_builds 0 r = r.
Proof. destruct r. unfold after_builds. simpl. now rewrite !Nat.add_0_r. Qed.

Lemma after_builds_S (n : nat) (r : Runtime) :
  after_builds n (after_builds 1 r) = after_builds (S n) r.
Proof. unfold after_builds. simpl. f_equal; lia. Qed.

Lemma kth_notification_shift (event : DomainEvent.t) (r : Runtime)
    (obs : UserSubscriber) (k : nat) (m : NotificationMessage.t) :
  kth_notification event (after_builds 1 r) obs k m ->
  kth_notification event r obs (S k) m.
Proof.
  unfold kth_notification. simpl.
  replace (uuid_calls r + 1 + k) with (uuid_calls r + S k) by lia.
  replace (now_calls r + 1 + k) with (now_calls r + S k) by lia.
  tauto.
Qed.

Lemma notifyAll_loop_trace (event : DomainEvent.t) (rest : list UserSubscriber) :
  Forall (fun obs => supported (Subscriber.channel (subscriber obs))) rest ->
  forall out r,
  exists batch,
    EventBus.notifyAll_loop rest event out r
    = Ok (out ++ batch)%list (after_builds (length rest) r)
    /\ length batch = length rest
    /\ (forall k m, nth_error batch k = Some m ->
          exists obs, nth_error rest k = Some obs
                      /\ kth_notification event r obs k m).
Proof.
  induction 1 as [|[s] rest Hs Hrest IH]; intros out r.
  - exists []. simpl. rewrite app_nil_r, after_builds_0.
    split; [reflexivity|]. split; [reflexivity|].
    intros [|k] m E; discriminate.
  - simpl in Hs. destruct (UserSubscriber_update_ok s event r Hs) as [x Hx].
    match type of Hx with _ = Ok ?m0 _ => set (m1 := m0) in * end.
    destruct (UserSubscriber_update_returns s event r _ _ Hx) as (Hr & Hk & _).
    rewrite Hr in Hx.
    destruct (IH (out ++ [m1])%list (after_builds 1 r)) as (batch & Hb & Hl & Hn).
    exists (m1 :: batch). simpl. unfold bind.
    change (UserSubscriber_update (new_UserSubscriber s) event r)
      with (update (new_UserSubscriber s) event r).
    rewrite Hx, Hb, after_builds_S, <- app_assoc. simpl.
    split; [reflexivity|]. split; [now rewrite Hl|].
    intros [|k] m E; simpl in E.
    + injection E as <-. exists (new_UserSubscriber s). auto.
    + destruct (Hn k m E) as (obs & Ho & Hkth).
      exists obs. split; [exact Ho | now apply kth_notification_shift].
Qed.

(** X7. Fan-out on the facade's bus costs one clock reading and one id per
    listener and nothing else: when every listener's channel is known,
    [notifyAll] returns in the runtime advanced by [count()] readings and
    ids, and the k-th entry of the batch carries the k-th id drawn, the
    k-th reading as [sentAt], and the fields of the k-th listener's
    subscriber and of the event. *)
Theorem X7_fanout_draws_one_reading_and_one_id_per_listener
    (this : EventBus.t UserSubscriber) (event : DomainEvent.t) (r : Runtime) :
  Forall (fun obs => supported (Subscriber.channel (subscriber obs)))
         (JsMap.values (EventBus.observers this)) ->
  exists batch,
    EventBus.notifyAll this event r
    = Ok batch (after_builds (EventBus.count this) r)
    /\ length batch = EventBus.count this
    /\ (forall k m, nth_error batch k = Some m ->
          exists obs,
            nth_error (JsMap.values (EventBus.observers this)) k = Some obs
            /\ kth_notification event r obs k m).
Proof.
  intros Hs. destruct (notifyAll_loop_trace event _ Hs [] r) as (batch & Hb & Hl & Hn).
  assert (Hc : length (JsMap.values (EventBus.observers this))
               = EventBus.count this)
    by (unfold JsMap.values, EventBus.count, JsMap.size; apply length_map).
  exists batch. unfold EventBus.notifyAll. rewrite Hb, Hl, Hc. auto.
Qed.

(** Ana and Bob on the bus, sample runtime: two readings and two ids later,
    Bob's notification has the id [u1] and the reading 1007. *)
Lemma X7_fanout_draws_one_reading_and_one_id_per_listener_witness :
  exists batch,
    EventBus.notifyAll (Sample.bus_of [Sample.ana; Sample.bob]) Sample.past
                       Sample.rt
    = Ok batch (after_builds 2 Sample.rt)
    /\ length batch = 2
    /\ forall m, nth_error batch 1 = Some m ->
                 NotificationMessage.id m = "u1"
                 /\ NotificationMessage.sentAt m = 1007%Z.
Proof.
  destruct (X7_fanout_draws_one_reading_and_one_id_per_listener
              (Sample.bus_of [Sample.ana; Sample.bob]) Sample.past Sample.rt)
    as (batch & Hb & Hl & Hn).
  - simpl. constructor; [left; reflexivity|].
    constructor; [right; left; reflexivity | constructor].
  - exists batch. split; [exact Hb|]. split; [exact Hl|].
    intros m E. destruct (Hn 1 m E) as (obs & _ & Hid & _ & _ & _ & _ & _ & _ & Hs & _).
    rewrite Hid, Hs. split; reflexivity.
Defined.

(** ** Scheduling *)

Arguments Math_floor : simpl never.


Lemma dispatch_schedules (deliver : DeliverFn)
    (messages : list NotificationMessage.t) :
  forall r, exists new,
    AsyncDispatcher.dispatch messages deliver r
    = Ok tt (mkRuntime (now_oracle r) (now_calls r) (uuid_oracle r) (uuid_calls r)
                       (random_oracle r) (random_calls r + length messages)
                       (timers r ++ new)%list (written r) (JSON_stringify r))
    /\ map snd new = map (Thunk deliver) messages
    /\ (forall k t, nth_error new k = Some t ->
          fst t = Math_floor (random_oracle r (random_calls r + k) * 120)%Q).
Proof.
  induction messages as [|m rest IH]; intros r.
  - exists []. simpl. rewrite app_nil_r, Nat.add_0_r. destruct r.
    split; [reflexivity|]. split; [reflexivity|].
    intros [|k] t E; discriminate.
  - simpl. unfold bind. simpl.
    match goal with |- context [AsyncDispatcher.dispatch rest deliver ?r0] =>
      destruct (IH r0) as (new & E & Hm & Hn) end.
    exists ((Math_floor (random_oracle r (random_calls r) * 120)%Q,
             Thunk deliver m) :: new).
    rewrite E. simpl. rewrite <- app_assoc. simpl.
    split; [f_equal; f_equal; lia|]. split; [now rewrite Hm|].
    intros [|k] t Hk; simpl in Hk.
    + injection Hk as <-. simpl. now rewrite Nat.add_0_r.
    + rewrite (Hn k t Hk). simpl. f_equal. f_equal. f_equal. lia.
Qed.



(** ** A publish call, step by step *)

Lemma count_values (this : EventBus.t UserSubscriber) :
  length (JsMap.values (EventBus.observers this)) = EventBus.count this.
Proof. unfold JsMap.values, EventBus.count, JsMap.size. apply length_map. Qed.

Lemma publishEvent_trace (title : string) (type : EventType) (st : System) :
  channels_supported st ->
  let event := published_event title type (runtime st) in
  let r0 := after_event_built (runtime st) in
  let n := EventBus.count (bus (facade st)) in
  exists batch new,
    publishEvent title type st
    = Ok event
         (mkSystem (facade st)
            (mkRuntime (now_oracle r0) (now_calls r0 + n)
                       (uuid_oracle r0) (uuid_calls r0 + n)
                       (random_oracle r0) (random_calls r0 + n)
                       (timers r0 ++ new)%list (written r0) (JSON_stringify r0)))
    /\ map snd new = map (Thunk BroadcastFn) batch
    /\ length batch = n
    /\ (forall k t, nth_error new k = Some t ->
          fst t = Math_floor (random_oracle r0 (random_calls r0 + k) * 120)%Q)
    /\ (forall k m, nth_error batch k = Some m ->
          exists obs,
            nth_error (JsMap.values (EventBus.observers (bus (facade st)))) k
            = Some obs
            /\ kth_notification event r0 obs k m).
Proof.
  intros Hs event r0 n. rewrite publishEvent_unfold. cbv zeta.
  fold event. fold r0.
  destruct (notifyAll_loop_trace event _ Hs [] r0) as (batch & Hb & Hl & Hn).
  unfold EventBus.notifyAll. rewrite Hb. simpl app.
  rewrite count_values in Hb, Hl. fold n in Hl. rewrite count_values. fold n.
  destruct (dispatch_schedules BroadcastFn batch (after_builds n r0))
    as (new & E & Hm & Hj).
  rewrite E. exists batch, new. rewrite Hl. simpl. auto.
Qed.

(** X9. On a bus whose listeners are all on known channels [publishEvent]
    never throws. It returns the event built from its arguments, the id
    drawn first and the clock reading taken next; it leaves the facade and
    the output alone; it queues, behind the timers already pending, one
    delivery per listener, in listener order, each for a notification of
    this event to that listener's subscriber; and it costs [count() + 1]
    ids, [count() + 1] clock readings and [count()] random numbers. *)
Theorem X9_publishEvent_queues_one_delivery_per_listener (title : string)
    (type : EventType) (st : System) :
  channels_supported st ->
  let n := EventBus.count (bus (facade st)) in
  exists batch new st',
    publishEvent title type st
    = Ok (published_event title type (runtime st)) st'
    /\ facade st' = facade st
    /\ timers (runtime st') = (timers (runtime st) ++ new)%list
    /\ map snd new = map (Thunk BroadcastFn) batch
    /\ map NotificationMessage.userId batch
       = map (fun obs => Subscriber.id (subscriber obs))
             (JsMap.values (EventBus.observers (bus (facade st))))
    /\ Forall (fun m =>
                 NotificationMessage.eventId m
                 = uuid_oracle (runtime st) (uuid_calls (runtime st))
                 /\ NotificationMessage.eventTitle m = title
                 /\ NotificationMessage.eventType m = type) batch
    /\ written (runtime st') = written (runtime st)
    /\ uuid_calls (runtime st') = uuid_calls (runtime st) + 1 + n
    /\ now_calls (runtime st') = now_calls (runtime st) + 1 + n
    /\ random_calls (runtime st') = random_calls (runtime st) + n.
Proof.
  intros Hs n.
  destruct (publishEvent_trace title type st Hs) as (batch & new & E & Hm & Hl & _ & Hn).
  exists batch, new. eexists. split; [exact E|]. simpl.
  split; [reflexivity|]. split; [reflexivity|]. split; [exact Hm|].
  split; [|split; [|repeat split; fold n; lia]].
  - apply nth_error_ext. intros k. rewrite !nth_error_map.
    destruct (nth_error batch k) as [m|] eqn:Ek.
    + destruct (Hn k m Ek) as (obs & -> & _ & Hu & _). simpl. now rewrite Hu.
    + apply nth_error_None in Ek. rewrite Hl, <- count_values in Ek.
      apply nth_error_None in Ek. now rewrite Ek.
  - apply Forall_forall. intros m Hin.
    destruct (In_nth_error _ _ Hin) as [k Hk].
    destruct (Hn k m Hk) as (obs & _ & _ & _ & _ & _ & He & Ht & Hy & _).
    rewrite He, Ht, Hy. simpl. auto.
Qed.

(** In the sample state with Ana and Bob subscribed: the event [u2], two
    deliveries queued, for [u0] and [u1], three ids and three clock
    readings spent. *)
Lemma X9_publishEvent_queues_one_delivery_per_listener_witness :
  exists batch new st',
    publishEvent "X" "CREATED" Sample.subscribed
    = Ok (DomainEvent.mk "u2" "X" "CREATED" 1000) st'
    /\ timers (runtime st') = new
    /\ map snd new = map (Thunk BroadcastFn) batch
    /\ map NotificationMessage.userId batch = ["u0"; "u1"]
    /\ uuid_calls (runtime st') = 5
    /\ now_calls (runtime st') = 3.
Proof.
  destruct (X9_publishEvent_queues_one_delivery_per_listener
              "X" "CREATED" Sample.subscribed)
    as (batch & new & st' & E & _ & Ht & Hm & Hu & _ & _ & Hi & Hc & _).
  - unfold channels_supported. simpl.
    constructor; [left; reflexivity|].
    constructor; [right; left; reflexivity | constructor].
  - exists batch, new, st'.
    split; [exact E|]. split; [exact Ht|]. split; [exact Hm|].
    split; [exact Hu|]. split; [exact Hi | exact Hc].
Defined.

(** X10. While the clock does not run backwards no latency is clamped: in
    the batch of a publish call every notification was sent no earlier than
    the event was created, and its [latencyMs] is exactly
    [sentAt - createdAt]. *)
Theorem X10_latency_is_the_time_since_creation (title : string)
    (type : EventType) (st : System) :
  channels_supported st ->
  clock_monotone (runtime st) ->
  exists event batch new st',
    publishEvent title type st = Ok event st'
    /\ timers (runtime st') = (timers (runtime st) ++ new)%list
    /\ map snd new = map (Thunk BroadcastFn) batch
    /\ Forall (fun m =>
                 (DomainEvent.createdAt event <= NotificationMessage.sentAt m)%Z
                 /\ NotificationMessage.latencyMs m
                    = (NotificationMessage.sentAt m
                       - DomainEvent.createdAt event)%Z) batch.
Proof.
  intros Hs Hmono.
  destruct (publishEvent_trace title type st Hs) as (batch & new & E & Hm & _ & _ & Hn).
  eexists. exists batch, new. eexists. split; [exact E|]. simpl.
  split; [reflexivity|]. split; [exact Hm|].
  apply Forall_forall. intros m Hin.
  destruct (In_nth_error _ _ Hin) as [k Hk].
  destruct (Hn k m Hk) as (obs & _ & _ & _ & _ & _ & _ & _ & _ & Hsent & Hlat).
  simpl in Hsent, Hlat.
  assert (Hle : (now_oracle (runtime st) (now_calls (runtime st))
                 <= NotificationMessage.sentAt m)%Z).
  { rewrite Hsent. apply Hmono. lia. }
  split; [exact Hle | rewrite Hlat; lia].
Qed.

(** The sample clock advances 7 ms per reading: latencies 7 and 14. *)
Lemma X10_latency_is_the_time_since_creation_witness :
  exists event batch new st',
    publishEvent "X" "CREATED" Sample.subscribed = Ok event st'
    /\ timers (runtime st') = ([] ++ new)%list
    /\ map snd new = map (Thunk BroadcastFn) batch
    /\ Forall (fun m =>
                 (DomainEvent.createdAt event <= NotificationMessage.sentAt m)%Z
                 /\ NotificationMessage.latencyMs m
                    = (NotificationMessage.sentAt m
                       - DomainEvent.createdAt event)%Z) batch.
Proof.
  apply (X10_latency_is_the_time_since_creation "X" "CREATED" Sample.subscribed).
  - unfold channels_supported. simpl.
    constructor; [left; reflexivity|].
    constructor; [right; left; reflexivity | constructor].
  - intros i j Hij.
    change (now_oracle (runtime Sample.subscribed))
      with (fun k => (1000 + 7 * Z.of_nat k)%Z).
    cbv beta. lia.
Defined.

(** X11. While [randomUUID] does not repeat itself, the ids of one publish
    call are pairwise distinct: the event's id and the ids of the
    notifications of its batch. *)
Theorem X11_ids_of_a_publish_call_are_distinct (title : string)
    (type : EventType) (st : System) :
  channels_supported st ->
  uuid_never_repeats (runtime st) ->
  exists event batch new st',
    publishEvent title type st = Ok event st'
    /\ timers (runtime st') = (timers (runtime st) ++ new)%list
    /\ map snd new = map (Thunk BroadcastFn) batch
    /\ NoDup (DomainEvent.id event :: map NotificationMessage.id batch).
Proof.
  intros Hs Hinj.
  destruct (publishEvent_trace title type st Hs) as (batch & new & E & Hm & _ & _ & Hn).
  eexists. exists batch, new. eexists. split; [exact E|]. simpl.
  split; [reflexivity|]. split; [exact Hm|].
  set (u := uuid_calls (runtime st)).
  assert (Hid : forall i x,
             nth_error (uuid_oracle (runtime st) u
                        :: map NotificationMessage.id batch) i = Some x ->
             x = uuid_oracle (runtime st) (u + i)).
  { intros [|k] x Hx; simpl in Hx.
    - injection Hx as <-. now rewrite Nat.add_0_r.
    - rewrite nth_error_map in Hx.
      destruct (nth_error batch k) as [m|] eqn:Ek; [|discriminate].
      injection Hx as <-. destruct (Hn k m Ek) as (obs & _ & Hi & _).
      rewrite Hi. simpl. fold u. f_equal. lia. }
  apply NoDup_nth_error. intros i j Hi Hij.
  destruct (nth_error _ i) as [x|] eqn:Ei;
    [|apply nth_error_None in Ei; lia].
  symmetry in Hij. apply Hid in Ei. apply Hid in Hij.
  rewrite Ei in Hij. apply Hinj in Hij. lia.
Qed.

Lemma tally_injective (i j : nat) : Scenario.tally i = Scenario.tally j -> i = j.
Proof.
  revert j. induction i as [|i IH]; intros [|j] E; simpl in E;
    try discriminate; [reflexivity|].
  injection E as E. f_equal. now apply IH.
Qed.

(** With ids [u], [ui], [uii], ...: the event is [uii], the notifications
    are [uiii] and [uiiii]. *)
Lemma X11_ids_of_a_publish_call_are_distinct_witness :
  exists event batch new st',
    publishEvent "X" "CREATED" Scenario.subscribed_tally = Ok event st'
    /\ timers (runtime st') = ([] ++ new)%list
    /\ map snd new = map (Thunk BroadcastFn) batch
    /\ NoDup (DomainEvent.id event :: map NotificationMessage.id batch).
Proof.
  apply (X11_ids_of_a_publish_call_are_distinct "X" "CREATED"
           Scenario.subscribed_tally).
  - unfold channels_supported. simpl.
    constructor; [left; reflexivity|].
    constructor; [right; left; reflexivity | constructor].
  - intros i j E.
    change (uuid_oracle (runtime Scenario.subscribed_tally))
      with (fun k => String "u" (Scenario.tally k)) in E.
    cbv beta in E. injection E as E. now apply tally_injective.
Defined.

(** X12. Publishing to nobody: when the bus has no listener,
    [publishEvent] returns the event, having drawn one id and read the
    clock once, and schedules nothing. *)
Theorem X12_publishEvent_without_listeners (title : string) (type : EventType)
    (st : System) :
  EventBus.count (bus (facade st)) = 0 ->
  publishEvent title type st
  = Ok (published_event title type (runtime st))
       (mkSystem (facade st) (after_event_built (runtime st))).
Proof.
  destruct st as [[[obs] d s c] r]. unfold EventBus.count, JsMap.size. simpl.
  intros Hn. apply length_zero_iff_nil in Hn. subst obs. reflexivity.
Qed.

(** A publish call on the empty facade. *)
Lemma X12_publishEvent_without_listeners_witness :
  publishEvent "X" "CREATED" (initial Sample.rt)
  = Ok (DomainEvent.mk "u0" "X" "CREATED" 1000)
       (mkSystem new_EventNotifyFacade (after_event_built Sample.rt)).
Proof.
  apply (X12_publishEvent_without_listeners "X" "CREATED" (initial Sample.rt)).
  reflexivity.
Defined.

(** ** Timers coming due *)

Lemma broadcast_loop_unfold (data : string) (clients : list Response) :
  forall r,
    broadcast_loop clients data r
    = Ok tt (mkRuntime (now_oracle r) (now_calls r) (uuid_oracle r) (uuid_calls r)
                       (random_oracle r) (random_calls r) (timers r)
                       (written r ++ flat_map (notification_chunks data) clients)%list
                       (JSON_stringify r)).
Proof.
  induction clients as [|client rest IH]; intros r; simpl.
  - rewrite app_nil_r. now destruct r.
  - unfold bind. simpl. rewrite IH. simpl. rewrite <- !app_assoc. reflexivity.
Qed.

Lemma fire_unfold (k : nat) (t : Z * Task) (st : System) :
  nth_error (timers (runtime st)) k = Some t ->
  fire k st
  = Ok tt
       (mkSystem (facade st)
          (mkRuntime (now_oracle (runtime st)) (now_calls (runtime st))
                     (uuid_oracle (runtime st)) (uuid_calls (runtime st))
                     (random_oracle (runtime st)) (random_calls (runtime st))
                     (remove_nth k (timers (runtime st)))
                     (written (runtime st)
                      ++ delivery (runtime st) (sseClients (facade st)) t)%list
                     (JSON_stringify (runtime st)))).
Proof.
  intros Hk. unfold fire, bind, gets. rewrite Hk.
  destruct t as [delay [[] m]]. simpl.
  unfold broadcast, bind, gets, liftIO. simpl.
  rewrite broadcast_loop_unfold. reflexivity.
Qed.

Lemma remove_nth_length {A} (k : nat) (l : list A) (x : A) :
  nth_error l k = Some x -> S (length (remove_nth k l)) = length l.
Proof.
  revert k. induction l as [|y l IH]; intros [|k] E; simpl in *;
    try discriminate; [reflexivity|].
  now rewrite (IH k E).
Qed.

(** X13. A timer fires once and never throws. Firing a timer that is not in
    the queue does nothing at all. Firing one that is takes it, and only
    it, out of the queue and writes its notification, serialized when it
    fires, as one [notification] event to each client connected at that
    moment; facade, clock and generators stay as they were. *)
Theorem X13_a_timer_fires_once (k : nat) (st : System) :
  (nth_error (timers (runtime st)) k = None -> fire k st = Ok tt st)
  /\ (forall t,
        nth_error (timers (runtime st)) k = Some t ->
        exists st',
          fire k st = Ok tt st'
          /\ facade st' = facade st
          /\ timers (runtime st') = remove_nth k (timers (runtime st))
          /\ S (length (timers (runtime st'))) = length (timers (runtime st))
          /\ written (runtime st')
             = (written (runtime st)
                ++ delivery (runtime st) (sseClients (facade st)) t)%list
          /\ now_calls (runtime st') = now_calls (runtime st)
          /\ uuid_calls (runtime st') = uuid_calls (runtime st)
          /\ random_calls (runtime st') = random_calls (runtime st)).
Proof.
  split.
  - intros Hk. unfold fire, bind, gets. rewrite Hk. reflexivity.
  - intros t Hk. eexists. split; [apply (fire_unfold k t st Hk)|]. simpl.
    repeat split. apply (remove_nth_length k _ t Hk).
Qed.

(** In the sample state two timers are pending: timer 5 does not exist,
    timer 1 leaves one timer behind. *)
Lemma X13_a_timer_fires_once_witness :
  fire 5 Sample.published = Ok tt Sample.published
  /\ exists st', fire 1 Sample.published = Ok tt st'
                 /\ S (length (timers (runtime st'))) = 2.
Proof.
  destruct (X13_a_timer_fires_once 5 Sample.published) as [Hnone _].
  split; [apply Hnone; reflexivity|].
  destruct (X13_a_timer_fires_once 1 Sample.published) as [_ Hsome].
  destruct (nth_error (timers (runtime Sample.published)) 1) as [t|] eqn:E;
    [|vm_compute in E; discriminate].
  destruct (Hsome t eq_refl) as (st' & Hf & _ & _ & Hl & _).
  exists st'. split; [exact Hf|]. rewrite Hl. reflexivity.
Defined.

Lemma delivery_ext (r1 r2 : Runtime) (clients : list Response) (t : Z * Task) :
  JSON_stringify r1 = JSON_stringify r2 ->
  delivery r1 clients t = delivery r2 clients t.
Proof. unfold delivery. now intros ->. Qed.

Lemma drain_from (pending : list (Z * Task)) :
  forall st,
    timers (runtime st) = pending ->
    let st' := exec (repeat (Fire 0) (length pending)) st in
    facade st' = facade st
    /\ timers (runtime st') = []
    /\ written (runtime st')
       = (written (runtime st)
          ++ flat_map (delivery (runtime st) (sseClients (facade st))) pending)%list.
Proof.
  induction pending as [|t rest IH]; intros st Ht; simpl.
  - rewrite app_nil_r. auto.
  - assert (Hk : nth_error (timers (runtime st)) 0 = Some t) by now rewrite Ht.
    change (step (Fire 0) st) with (fire 0 st).
    rewrite (fire_unfold 0 t st Hk). simpl final.
    match goal with |- context [exec _ ?st1] =>
      destruct (IH st1) as (Hf & Hq & Hw) end.
    { simpl. now rewrite Ht. }
    rewrite Hf, Hq, Hw. simpl. rewrite <- app_assoc.
    split; [reflexivity|]. split; [reflexivity|].
    do 2 apply f_equal. apply flat_map_ext. intros t'.
    now apply delivery_ext.
Qed.

(** X14. When every pending timer has come due, oldest first, the queue is
    empty, the facade is as it was, and the output has grown by the
    deliveries of the pending notifications in queue order, each written
    to the clients connected throughout. Nothing pending is lost and
    nothing is delivered twice. *)
Theorem X14_draining_the_queue_delivers_everything (st : System) :
  facade (drain st) = facade st
  /\ timers (runtime (drain st)) = []
  /\ written (runtime (drain st))
     = (written (runtime st)
        ++ flat_map (delivery (runtime st) (sseClients (facade st)))
                    (timers (runtime st)))%list.
Proof. unfold drain. now apply drain_from. Qed.

(** X15. Subscribing and unsubscribing reach neither the timers nor the
    output nor the client set, so a delivery that is pending is not
    cancelled: whichever timer fires after an [unsubscribeUser] or a
    [subscribeUser] writes exactly what it would have written without that
    call, also the notification built for a subscriber who has left since. *)
Theorem X15_unsubscribing_cancels_no_delivery (st : System) (k : nat) :
  (forall id,
      let st1 := final (unsubscribeUser id st) in
      timers (runtime st1) = timers (runtime st)
      /\ sseClients (facade st1) = sseClients (facade st)
      /\ written (runtime st1) = written (runtime st)
      /\ written (runtime (final (fire k st1)))
         = written (runtime (final (fire k st))))
  /\ (forall name channel,
        let st1 := final (subscribeUser name channel st) in
        timers (runtime st1) = timers (runtime st)
        /\ sseClients (facade st1) = sseClients (facade st)
        /\ written (runtime st1) = written (runtime st)
        /\ written (runtime (final (fire k st1)))
           = written (runtime (final (fire k st)))).
Proof.
  split.
  - intros id st1. subst st1. rewrite unsubscribeUser_unfold. cbn [final].
    match goal with |- context [fire k ?s1] =>
      lazymatch s1 with st => fail | _ => set (st1 := s1) end end.
    split; [reflexivity|]. split; [reflexivity|]. split; [reflexivity|].
    destruct (nth_error (timers (runtime st)) k) as [t|] eqn:Hk.
    + rewrite (fire_unfold k t st Hk), (fire_unfold k t st1 Hk). reflexivity.
    + unfold fire, bind, gets.
      change (timers (runtime st1)) with (timers (runtime st)).
      rewrite Hk. reflexivity.
  - intros name channel st1. subst st1. rewrite subscribeUser_unfold.
    cbv zeta. cbn [final].
    match goal with |- context [fire k ?s1] =>
      lazymatch s1 with st => fail | _ => set (st1 := s1) end end.
    split; [reflexivity|]. split; [reflexivity|]. split; [reflexivity|].
    destruct (nth_error (timers (runtime st)) k) as [t|] eqn:Hk.
    + rewrite (fire_unfold k t st Hk), (fire_unfold k t st1 Hk). reflexivity.
    + unfold fire, bind, gets.
      change (timers (runtime st1)) with (timers (runtime st)).
      rewrite Hk. reflexivity.
Qed.

(** ** Registry and bus in lockstep *)

Lemma listeners_of_set (k : string) (v : Subscriber.t) (m : JsMap.t Subscriber.t) :
  listeners_of (JsMap.set k v m) = JsMap.set k (new_UserSubscriber v) (listeners_of m).
Proof.
  induction m as [|[k' v'] rest IH]; simpl; [reflexivity|].
  destruct (String.eqb k' k); simpl; [reflexivity | now rewrite IH].
Qed.

Lemma listeners_of_delete (k : string) (m : JsMap.t Subscriber.t) :
  listeners_of (JsMap.delete k m) = JsMap.delete k (listeners_of m).
Proof.
  unfold JsMap.delete. induction m as [|[k' v'] rest IH]; simpl; [reflexivity|].
  destruct (String.eqb k' k); simpl; now rewrite IH.
Qed.

Lemma keys_listeners_of (m : JsMap.t Subscriber.t) :
  JsMap.keys (listeners_of m) = JsMap.keys m.
Proof.
  unfold JsMap.keys, listeners_of. rewrite map_map. now apply map_ext.
Qed.

Lemma Forall_set {V} (P : string * V -> Prop) (k : string) (v : V) (m : JsMap.t V) :
  Forall P m -> P (k, v) -> Forall P (JsMap.set k v m).
Proof.
  intros Hm Hkv. induction Hm as [|[k' v'] rest Hh Hrest IH]; simpl.
  - now constructor.
  - destruct (String.eqb k' k); constructor; assumption.
Qed.

Lemma Forall_delete {V} (P : string * V -> Prop) (k : string) (m : JsMap.t V) :
  Forall P m -> Forall P (JsMap.delete k m).
Proof.
  unfold JsMap.delete. rewrite !Forall_forall. intros H x Hx.
  apply filter_In in Hx. now apply H.
Qed.

Lemma NoDup_add (x : nat) (s : JsSet.t) : NoDup s -> NoDup (JsSet.add x s).
Proof.
  intros H. unfold JsSet.add. destruct (JsSet.has x s) eqn:E; [exact H|].
  apply NoDup_app; [exact H | repeat constructor; simpl; tauto |].
  intros y Hy [<-|[]]. unfold JsSet.has in E.
  assert (existsb (Nat.eqb x) s = true)
    by (apply existsb_exists; exists x; split; [exact Hy | apply Nat.eqb_refl]).
  congruence.
Qed.

Lemma lockstep_subscribeUser (name : string) (channel : ChannelType) (st : System) :
  lockstep (facade st) ->
  lockstep (facade (final (subscribeUser name channel st))).
Proof.
  intros (Hobs & Hid & Hwf & Hcl). rewrite subscribeUser_unfold. simpl.
  unfold lockstep, EventBus.subscribe. simpl.
  split; [now rewrite Hobs, listeners_of_set|].
  split; [now apply Forall_set|]. split; [now apply wf_set | exact Hcl].
Qed.

Lemma lockstep_unsubscribeUser (id : string) (st : System) :
  lockstep (facade st) -> lockstep (facade (final (unsubscribeUser id st))).
Proof.
  intros (Hobs & Hid & Hwf & Hcl). rewrite unsubscribeUser_unfold. simpl.
  unfold lockstep, EventBus.unsubscribe. simpl.
  split; [now rewrite Hobs, listeners_of_delete|].
  split; [now apply Forall_delete|]. split; [now apply wf_delete | exact Hcl].
Qed.

Lemma lockstep_addSseClient (res : Response) (st : System) :
  lockstep (facade st) -> lockstep (facade (final (addSseClient res st))).
Proof.
  intros (Hobs & Hid & Hwf & Hcl). destruct st as [[b d s c] r].
  unfold lockstep. simpl in *. repeat split; auto. now apply NoDup_add.
Qed.

Lemma lockstep_removeSseClient (res : Response) (st : System) :
  lockstep (facade st) -> lockstep (facade (final (removeSseClient res st))).
Proof.
  intros (Hobs & Hid & Hwf & Hcl). destruct st as [[b d s c] r].
  unfold lockstep. simpl in *. repeat split; auto.
  unfold JsSet.delete. now apply NoDup_filter.
Qed.

Lemma lockstep_step (op : Op) (st : System) :
  lockstep (facade st) -> lockstep (facade (final (step op st))).
Proof.
  intros H. destruct op as [name channel|id|title type|res|res|k]; unfold step.
  - rewrite final_then_ret. now apply lockstep_subscribeUser.
  - now apply lockstep_unsubscribeUser.
  - now rewrite final_then_ret, publishEvent_facade.
  - now apply lockstep_addSseClient.
  - now apply lockstep_removeSseClient.
  - now rewrite fire_facade.
Qed.

Lemma lockstep_initial (r : Runtime) : lockstep (facade (initial r)).
Proof. unfold lockstep, JsMap.wf. simpl. repeat split; constructor. Qed.

(** X16. The registry and the bus move in lockstep. In every state the
    facade reaches from empty, the listeners of the bus are exactly the
    wrapped entries of the registry, id by id and in the same order; every
    subscriber is stored under its own id; no id occurs twice and no client
    is connected twice. So [listSubscribers()] lists as many subscribers as
    [count()] counts, with pairwise distinct ids. *)
Theorem X16_registry_and_bus_move_in_lockstep (st : System) :
  reachable st ->
  lockstep (facade st)
  /\ length (JsMap.values (subscribers (facade st)))
     = EventBus.count (bus (facade st))
  /\ map Subscriber.id (JsMap.values (subscribers (facade st)))
     = listener_ids st
  /\ NoDup (map Subscriber.id (JsMap.values (subscribers (facade st)))).
Proof.
  intros Hr.
  assert (H : lockstep (facade st)).
  { induction Hr as [r|st op Hr IH];
      [apply lockstep_initial | now apply lockstep_step]. }
  split; [exact H|]. destruct H as (Hobs & Hid & Hwf & _).
  assert (Hids : map Subscriber.id (JsMap.values (subscribers (facade st)))
                 = JsMap.keys (subscribers (facade st))).
  { unfold JsMap.values, JsMap.keys. rewrite map_map. apply map_ext_in.
    intros kv Hin. rewrite Forall_forall in Hid. now apply Hid. }
  split; [|split].
  - unfold EventBus.count, JsMap.size, JsMap.values.
    now rewrite Hobs, length_map; unfold listeners_of; rewrite length_map.
  - unfold listener_ids. now rewrite Hobs, keys_listeners_of.
  - now rewrite Hids.
Qed.

(** The sample state: two subscribers listed, with the ids [u0] and [u1]
    of the two listeners. *)
Lemma X16_registry_and_bus_move_in_lockstep_witness :
  length (JsMap.values (subscribers (facade Sample.published))) = 2
  /\ EventBus.count (bus (facade Sample.published)) = 2
  /\ map Subscriber.id (JsMap.values (subscribers (facade Sample.published)))
     = ["u0"; "u1"].
Proof.
  destruct (X16_registry_and_bus_move_in_lockstep Sample.published)
    as (_ & Hl & Hi & _).
  - apply reachable_exec, reachable_exec, reachable_initial.
  - split; [reflexivity|]. split; [reflexivity|]. rewrite Hi. reflexivity.
Defined.

(** ** The routes, case by case *)

Lemma includes_type (t : string) :
  includes [JsStr "CREATED"; JsStr "UPDATED"; JsStr "CANCELLED"] (JsStr t) = true
  <-> known_type t.
Proof.
  unfold includes, known_type. cbn [existsb SameValueZero].
  rewrite !orb_true_iff, !String.eqb_eq. intuition congruence.
Qed.

Lemma supported_nonempty (c : string) : supported c -> (c =? "") = false.
Proof. intros [->|[->| ->]]; reflexivity. Qed.

Lemma known_type_nonempty (t : string) : known_type t -> (t =? "") = false.
Proof. intros [->|[->| ->]]; reflexivity. Qed.

Lemma subscribe_handler_accepts (n c : string) (st : System) :
  n <> "" -> supported c ->
  subscribe_handler (JsStr n) (JsStr c) st
  = (sub <- subscribeUser (JsString.trim n) c ;;
     total <- subscriberCount ;;
     ret (json (SubscribeBody sub total))) st.
Proof.
  intros Hn Hc. unfold subscribe_handler. cbn [truthy typeof].
  apply String.eqb_neq in Hn. rewrite Hn, (supported_nonempty c Hc).
  apply includes_channel in Hc. rewrite Hc. reflexivity.
Qed.

Lemma subscribe_handler_cases (name channel : JsValue) (st : System) :
  (exists n c, name = JsStr n /\ channel = JsStr c /\ n <> "" /\ supported c)
  \/ (exists error, subscribe_handler name channel st = Ok (bad_request error) st).
Proof.
  destruct name as [| |b|q|n|];
    try (right; eexists; unfold subscribe_handler; simpl; rewrite ?orb_true_r;
         try destruct b; reflexivity).
  destruct (string_dec n "") as [->|Hn]; [right; eexists; reflexivity|].
  assert (Hname : negb (truthy (JsStr n)) || negb (typeof (JsStr n) =? "string")
                  = false).
  { cbn [truthy typeof]. apply String.eqb_neq in Hn. rewrite Hn. reflexivity. }
  destruct channel as [| |b|q|c|];
    try (right; eexists; unfold subscribe_handler; rewrite Hname;
         cbn [truthy includes existsb SameValueZero]; rewrite ?orb_true_r;
         try destruct b; reflexivity).
  destruct (supported_dec c) as [Hc|Hc]; [left; exists n, c; auto|].
  right. eexists. unfold subscribe_handler. rewrite Hname.
  destruct (includes _ (JsStr c)) eqn:E;
    [apply includes_channel in E; contradiction|].
  rewrite orb_true_r. reflexivity.
Qed.

Lemma publish_handler_accepts (s t : string) (st : System) :
  s <> "" -> known_type t ->
  publish_handler (JsStr s) (JsStr t) st
  = (event <- publishEvent (JsString.trim s) t ;;
     total <- subscriberCount ;;
     ret (json (PublishBody event total))) st.
Proof.
  intros Hs Ht. unfold publish_handler. cbn [truthy typeof].
  apply String.eqb_neq in Hs. rewrite Hs, (known_type_nonempty t Ht).
  apply includes_type in Ht. rewrite Ht. reflexivity.
Qed.

Lemma publish_handler_rejects (title type : JsValue) (st : System) :
  (forall s, title = JsStr s -> s = "")
  \/ (forall t, type = JsStr t -> ~ known_type t) ->
  exists error,
    publish_handler title type st = Ok (bad_request error) st
    /\ ((forall s, title = JsStr s -> s = "") -> error = "title es requerido")
    /\ (error = "title es requerido"
        \/ error = "type inválido (CREATED|UPDATED|CANCELLED)").
Proof.
  intros Hbad.
  destruct title as [| |b|q|s|];
    try (exists "title es requerido"; repeat split; auto;
         unfold publish_handler; simpl; rewrite ?orb_true_r;
         try destruct b; reflexivity).
  destruct (string_dec s "") as [->|Hs];
    [exists "title es requerido"; repeat split; auto|].
  destruct Hbad as [Hbad|Hbad]; [specialize (Hbad s eq_refl); contradiction|].
  assert (Htitle : negb (truthy (JsStr s)) || negb (typeof (JsStr s) =? "string")
                   = false).
  { cbn [truthy typeof]. apply String.eqb_neq in Hs. rewrite Hs. reflexivity. }
  exists "type inválido (CREATED|UPDATED|CANCELLED)".
  split; [|split; [intros H; specialize (H s eq_refl); contradiction | auto]].
  unfold publish_handler. rewrite Htitle.
  destruct type as [| |b|q|t|];
    try (cbn [truthy includes existsb SameValueZero]; rewrite ?orb_true_r;
         try destruct b; reflexivity).
  destruct (includes _ (JsStr t)) eqn:E;
    [apply includes_type in E; destruct (Hbad t eq_refl E)|].
  rewrite orb_true_r. reflexivity.
Qed.

Lemma publish_handler_cases (title type : JsValue) (st : System) :
  (exists s t, title = JsStr s /\ type = JsStr t /\ s <> "" /\ known_type t)
  \/ (exists error, publish_handler title type st = Ok (bad_request error) st).
Proof.
  assert (Hrej : (forall s, title = JsStr s -> s = "")
                 \/ (forall t, type = JsStr t -> ~ known_type t) ->
                 exists error,
                   publish_handler title type st = Ok (bad_request error) st).
  { intros H. destruct (publish_handler_rejects title type st H) as (e & E & _).
    eauto. }
  destruct title as [| |b|q|s|];
    try (right; apply Hrej; left; intros s E; discriminate E).
  destruct (string_dec s "") as [->|Hs];
    [right; apply Hrej; left; intros s E; now injection E as <-|].
  destruct type as [| |b|q|t|];
    try (right; apply Hrej; right; intros t E; discriminate E).
  destruct (string_dec t "CREATED") as [->|H1];
    [left; exists s, "CREATED"; unfold known_type; repeat split; auto|].
  destruct (string_dec t "UPDATED") as [->|H2];
    [left; exists s, "UPDATED"; unfold known_type; repeat split; auto|].
  destruct (string_dec t "CANCELLED") as [->|H3];
    [left; exists s, "CANCELLED"; unfold known_type; repeat split; auto|].
  right. apply Hrej. right. intros t' E. injection E as <-.
  unfold known_type. tauto.
Qed.



(** X18. A valid publish request on a bus whose listeners are all on known
    channels is answered 200 with the event and the subscriber total: the
    event has the trimmed title and the given type, the total is [count()],
    the facade is unchanged, nothing has been written to a client yet, and
    one delivery per subscriber has joined the timer queue. *)
Theorem X18_valid_publish_is_answered_before_delivery (s t : string)
    (st : System) :
  s <> "" -> known_type t -> channels_supported st ->
  exists event st',
    publish_handler (JsStr s) (JsStr t) st
    = Ok (json (PublishBody event (EventBus.count (bus (facade st))))) st'
    /\ DomainEvent.title event = JsString.trim s
    /\ DomainEvent.type event = t
    /\ facade st' = facade st
    /\ written (runtime st') = written (runtime st)
    /\ length (timers (runtime st'))
       = length (timers (runtime st)) + EventBus.count (bus (facade st)).
Proof.
  intros Hs Ht Hch. rewrite (publish_handler_accepts s t st Hs Ht).
  destruct (publishEvent_trace (JsString.trim s) t st Hch)
    as (batch & new & E & Hm & Hl & _).
  unfold bind. rewrite E. unfold subscriberCount, gets, ret.
  cbn [facade]. eexists. eexists. split; [reflexivity|].
  cbn [facade runtime timers written].
  split; [reflexivity|]. split; [reflexivity|]. split; [reflexivity|].
  split; [reflexivity|].
  rewrite length_app, <- (length_map snd new), Hm, length_map, Hl. reflexivity.
Qed.

(** A padded title in the sample state with Ana and Bob: the event is
    titled X, the total is 2, two deliveries are pending. *)
Lemma X18_valid_publish_is_answered_before_delivery_witness :
  exists event st',
    publish_handler (JsStr "  X ") (JsStr "CREATED") Sample.subscribed
    = Ok (json (PublishBody event 2)) st'
    /\ DomainEvent.title event = "X"
    /\ written (runtime st') = []
    /\ length (timers (runtime st')) = 2.
Proof.
  destruct (X18_valid_publish_is_answered_before_delivery
              "  X " "CREATED" Sample.subscribed)
    as (event & st' & E & Hti & _ & _ & Hw & Hl).
  - discriminate.
  - left. reflexivity.
  - unfold channels_supported. simpl.
    constructor; [left; reflexivity|].
    constructor; [right; left; reflexivity | constructor].
  - exists event, st'. split; [exact E|]. split; [exact Hti|].
    split; [exact Hw | exact Hl].
Defined.

(** X19. A valid subscribe request is answered 200 with the subscriber
    stored and the total after storing it: the subscriber has the id drawn
    from the generator, the trimmed name and the channel as given, it is in
    the registry under its id with its listener on the bus, and when that
    id is new the total is one more than before. Lockstep of registry and
    bus is kept. *)
Theorem X19_valid_subscribe_is_answered_with_the_stored_subscriber
    (n c : string) (st : System) :
  n <> "" -> supported c ->
  let sub := Subscriber.mk (uuid_oracle (runtime st) (uuid_calls (runtime st)))
                           (JsString.trim n) c in
  exists st',
    subscribe_handler (JsStr n) (JsStr c) st
    = Ok (json (SubscribeBody sub (EventBus.count (bus (facade st'))))) st'
    /\ In (Subscriber.id sub, sub) (subscribers (facade st'))
    /\ In (Subscriber.id sub, new_UserSubscriber sub)
          (EventBus.observers (bus (facade st')))
    /\ (~ In (Subscriber.id sub) (listener_ids st) ->
        EventBus.count (bus (facade st')) = S (EventBus.count (bus (facade st))))
    /\ (lockstep (facade st) -> lockstep (facade st'))
    /\ (channels_supported st -> channels_supported st').
Proof.
  intros Hn Hc sub. subst sub. rewrite (subscribe_handler_accepts n c st Hn Hc).
  pose proof (lockstep_subscribeUser (JsString.trim n) c st) as Hlock.
  rewrite subscribeUser_unfold in Hlock. cbv zeta in Hlock. cbn [final] in Hlock.
  unfold bind. rewrite subscribeUser_unfold. cbv zeta.
  unfold subscriberCount, gets, ret. eexists. split; [reflexivity|].
  cbn [facade subscribers bus Subscriber.id].
  split; [apply In_set|]. split; [apply In_set|].
  split; [|split; [exact Hlock|]].
  - intros Hfresh. unfold listener_ids in Hfresh.
    unfold EventBus.count, EventBus.subscribe. simpl.
    rewrite !size_keys, keys_set_fresh by exact Hfresh.
    rewrite length_app. simpl. lia.
  - unfold channels_supported, EventBus.subscribe, JsMap.values. simpl.
    rewrite !Forall_map. intros H. apply Forall_set; [exact H | exact Hc].
Qed.

(** Cy subscribes by push with a padded name in the sample state. *)
Lemma X19_valid_subscribe_is_answered_with_the_stored_subscriber_witness :
  exists st',
    subscribe_handler (JsStr " Cy ") (JsStr "push") Sample.published
    = Ok (json (SubscribeBody (Subscriber.mk "u5" "Cy" "push") 3)) st'.
Proof.
  destruct (X19_valid_subscribe_is_answered_with_the_stored_subscriber
              " Cy " "push" Sample.published)
    as (st' & E & _ & _ & Hc & _).
  - discriminate.
  - right. right. reflexivity.
  - exists st'. rewrite E. rewrite Hc; [reflexivity|].
    vm_compute. intuition discriminate.
Defined.

(** X20. Unsubscribing a subscriber the registry holds, by its non-empty
    id, is answered 200 with a total one below the count before; the id is
    gone from the registry and from the bus, the other ids keep their
    order, and lockstep is kept. *)
Theorem X20_unsubscribe_of_known_id (id : string) (st : System) :
  lockstep (facade st) ->
  id <> "" ->
  In id (registry_ids st) ->
  exists st',
    unsubscribe_handler (JsStr id) st
    = Ok (json (UnsubscribeBody true (EventBus.count (bus (facade st'))))) st'
    /\ S (EventBus.count (bus (facade st'))) = EventBus.count (bus (facade st))
    /\ registry_ids st'
       = filter (fun k => negb (String.eqb k id)) (registry_ids st)
    /\ listener_ids st' = registry_ids st'
    /\ ~ In id (registry_ids st')
    /\ lockstep (facade st')
    /\ runtime st' = runtime st.
Proof.
  intros Hlock Hne Hin.
  pose proof (lockstep_unsubscribeUser id st Hlock) as Hlock'.
  destruct Hlock as (Hobs & _ & Hwf & _).
  unfold unsubscribe_handler. cbn [truthy].
  apply String.eqb_neq in Hne. rewrite Hne. cbn [negb].
  unfold bind. rewrite unsubscribeUser_unfold in *. cbn [final] in Hlock'.
  unfold subscriberCount, gets, ret. eexists. split; [reflexivity|].
  unfold registry_ids, listener_ids in *. cbn [facade runtime subscribers bus].
  assert (Hk : JsMap.keys (EventBus.observers (EventBus.unsubscribe id (bus (facade st))))
               = JsMap.keys (JsMap.delete id (subscribers (facade st)))).
  { unfold EventBus.unsubscribe. simpl.
    now rewrite Hobs, <- listeners_of_delete, keys_listeners_of. }
  split; [|split; [apply keys_delete | split; [exact Hk | split]]].
  - unfold EventBus.count. rewrite !size_keys, Hk, Hobs, keys_listeners_of.
    rewrite keys_delete. apply length_filter_once.
    apply NoDup_count_occ'; assumption.
  - rewrite In_keys_delete. tauto.
  - split; [exact Hlock' | reflexivity].
Qed.

(** Bob leaves the sample state: total 1, Ana stays. *)
Lemma X20_unsubscribe_of_known_id_witness :
  exists st',
    unsubscribe_handler (JsStr "u1") Sample.published
    = Ok (json (UnsubscribeBody true 1)) st'
    /\ registry_ids st' = ["u0"].
Proof.
  destruct (X20_unsubscribe_of_known_id "u1" Sample.published)
    as (st' & E & Hc & Hr & _).
  - unfold lockstep, JsMap.wf. vm_compute.
    repeat split; repeat constructor; simpl; intuition discriminate.
  - discriminate.
  - vm_compute. auto.
  - exists st'. split; [|rewrite Hr; reflexivity].
    rewrite E. do 3 f_equal.
    change (EventBus.count (bus (facade Sample.published))) with 2 in Hc.
    now injection Hc.
Defined.

(** X21. Listing reads only: in lockstep [GET /api/subscribers] answers 200
    with the registry's subscribers in insertion order and, as total, their
    number, and leaves the state as it was. *)
Theorem X21_listing_reports_the_registry (st : System) :
  lockstep (facade st) ->
  subscribers_handler st
  = Ok (json (SubscribersBody
                (JsMap.values (subscribers (facade st)))
                (length (JsMap.values (subscribers (facade st))))))
       st.
Proof.
  intros (Hobs & _). unfold subscribers_handler, listSubscribers,
    subscriberCount, bind, gets, ret. do 3 f_equal.
  unfold EventBus.count, JsMap.size, JsMap.values.
  now rewrite Hobs, length_map; unfold listeners_of; rewrite length_map.
Qed.

(** The sample state lists Ana and Bob, total 2. *)
Lemma X21_listing_reports_the_registry_witness :
  subscribers_handler Sample.published
  = Ok (json (SubscribersBody
                [Subscriber.mk "u0" "Ana" "email"; Subscriber.mk "u1" "Bob" "sms"]
                2))
       Sample.published.
Proof.
  rewrite (X21_listing_reports_the_registry Sample.published); [reflexivity|].
  unfold lockstep, JsMap.wf. vm_compute.
  repeat split; repeat constructor; simpl; intuition discriminate.
Defined.

(** ** Streaming clients *)

Lemma has_In_client (x : nat) (s : JsSet.t) : JsSet.has x s = true <-> In x s.
Proof.
  unfold JsSet.has. rewrite existsb_exists. split.
  - intros (y & Hy & E). apply Nat.eqb_eq in E. now subst.
  - intros H. exists x. split; [exact H | apply Nat.eqb_refl].
Qed.

Lemma In_add_client (x : nat) (s : JsSet.t) : In x (JsSet.add x s).
Proof.
  unfold JsSet.add. destruct (JsSet.has x s) eqn:E.
  - now apply has_In_client.
  - apply in_or_app. right. now left.
Qed.

Lemma delete_absent_client (x : nat) (s : JsSet.t) :
  ~ In x s -> JsSet.delete x s = s.
Proof.
  unfold JsSet.delete. induction s as [|y s IH]; simpl; intros H; [reflexivity|].
  destruct (Nat.eqb y x) eqn:E; simpl.
  - apply Nat.eqb_eq in E. subst. tauto.
  - f_equal. apply IH. tauto.
Qed.

Lemma chunks_of_self (c : Response) (data : string) (clients : list Response) :
  NoDup clients -> In c clients ->
  map snd (filter (fun w => Nat.eqb (fst w) c)
                  (flat_map (notification_chunks data) clients))
  = ["event: notification" ++ JsString.nl;
     "data: " ++ data ++ JsString.nl ++ JsString.nl].
Proof.
  induction 1 as [|client rest Hfresh Hnd IH]; intros Hin; [destruct Hin|].
  cbn [flat_map notification_chunks app filter fst].
  destruct (Nat.eqb client c) eqn:E.
  - apply Nat.eqb_eq in E. subst client.
    rewrite (chunks_of_others c data rest Hfresh). reflexivity.
  - apply IH. destruct Hin as [->|Hin]; [|exact Hin].
    rewrite Nat.eqb_refl in E. discriminate.
Qed.

(** X22. Each client connected when a timer fires gets that notification
    exactly once: with no client in the set twice (as in every reachable
    state), firing a pending timer appends to what a connected client has
    been written one [event: notification] line and one [data:] line with
    the serialized message, and nothing more. *)
Theorem X22_a_connected_client_gets_a_due_notification_once
    (c : Response) (k : nat) (delay : Z) (deliver : DeliverFn)
    (m : NotificationMessage.t) (st : System) :
  NoDup (sseClients (facade st)) ->
  In c (sseClients (facade st)) ->
  nth_error (timers (runtime st)) k = Some (delay, Thunk deliver m) ->
  written_to c (runtime (final (fire k st)))
  = (written_to c (runtime st)
     ++ [("event: notification" ++ JsString.nl)%string;
         ("data: " ++ JSON_stringify (runtime st) m
          ++ JsString.nl ++ JsString.nl)%string])%list.
Proof.
  intros Hnd Hin Hk. rewrite (fire_unfold k _ st Hk). cbn [final runtime].
  unfold written_to at 1. cbn [written]. rewrite written_to_app.
  unfold delivery. cbn [snd]. now rewrite chunks_of_self.
Qed.

(** Client 2 of the sample state when the second timer fires: the two
    lines of Bob's notification. *)
Lemma X22_a_connected_client_gets_a_due_notification_once_witness :
  exists m,
    nth_error (timers (runtime Sample.published)) 1
    = Some (60%Z, Thunk BroadcastFn m)
    /\ written_to 2 (runtime (final (fire 1 Sample.published)))
       = ["event: notification" ++ JsString.nl;
          "data: " ++ NotificationMessage.rendered m
          ++ JsString.nl ++ JsString.nl].
Proof.
  destruct (nth_error (timers (runtime Sample.published)) 1)
    as [[delay [[] m]]|] eqn:E; [|vm_compute in E; discriminate].
  assert (Hd : delay = 60%Z) by (vm_compute in E; congruence). subst delay.
  exists m. split; [reflexivity|].
  rewrite (X22_a_connected_client_gets_a_due_notification_once
             2 1 60%Z BroadcastFn m Sample.published).
  - reflexivity.
  - vm_compute. repeat constructor; simpl; intuition discriminate.
  - vm_compute. auto.
  - exact E.
Defined.

(** X23. The client set is a set. Adding a client that is connected changes
    nothing; removing one that is not connected changes nothing; a new
    client is connected after [addSseClient] and the state is back to what
    it was after [removeSseClient]; and after [removeSseClient] the client
    is not connected, whatever was the case before. *)
Theorem X23_client_set_is_a_set (res : Response) (st : System) :
  (In res (sseClients (facade st)) -> addSseClient res st = Ok tt st)
  /\ (~ In res (sseClients (facade st)) ->
      removeSseClient res st = Ok tt st
      /\ sseClients (facade (final (addSseClient res st)))
         = (sseClients (facade st) ++ [res])%list
      /\ final (removeSseClient res (final (addSseClient res st))) = st)
  /\ In res (sseClients (facade (final (addSseClient res st))))
  /\ ~ In res (sseClients (facade (final (removeSseClient res st)))).
Proof.
  destruct st as [[b d s c] r]. simpl.
  split; [|split; [|split]].
  - intros Hin. unfold addSseClient, on_facade, modify, set_sseClients. simpl.
    unfold JsSet.add. apply has_In_client in Hin. now rewrite Hin.
  - intros Hout.
    assert (Hhas : JsSet.has res c = false).
    { destruct (JsSet.has res c) eqn:E; [|reflexivity].
      apply has_In_client in E. contradiction. }
    unfold removeSseClient, addSseClient, on_facade, modify, set_sseClients.
    simpl. unfold JsSet.add. rewrite Hhas. simpl.
    rewrite (delete_absent_client res c Hout).
    split; [reflexivity|]. split; [reflexivity|].
    unfold JsSet.delete. rewrite filter_app. simpl. rewrite Nat.eqb_refl. simpl.
    rewrite app_nil_r. fold (JsSet.delete res c).
    now rewrite (delete_absent_client res c Hout).
  - apply In_add_client.
  - unfold JsSet.delete. rewrite filter_In, Nat.eqb_refl. simpl.
    intros [_ H]. discriminate.
Qed.

(** Client 1 is connected in the sample state and client 7 is not. *)
Lemma X23_client_set_is_a_set_witness :
  addSseClient 1 Sample.published = Ok tt Sample.published
  /\ removeSseClient 7 Sample.published = Ok tt Sample.published
  /\ final (removeSseClient 7 (final (addSseClient 7 Sample.published)))
     = Sample.published.
Proof.
  destruct (X23_client_set_is_a_set 1 Sample.published) as (Hadd & _).
  destruct (X23_client_set_is_a_set 7 Sample.published) as (_ & Hnew & _).
  split; [apply Hadd; vm_compute; auto|].
  destruct Hnew as (Hrm & _ & Hback); [vm_compute; intuition discriminate|].
  split; [exact Hrm | exact Hback].
Defined.

(** X24. Connecting greets the new client and nobody else: [GET /events]
    writes one [hello] event to the response, two chunks, the second one
    carrying the message [SSE conectado], and then adds the response to the
    client set; what the other clients have been written, the timers, the
    registry and the bus stay as they were. The [close] event takes the
    response out of the set again. *)
Theorem X24_connecting_greets_the_new_client (res : Response) (st : System) :
  exists data st',
    events_handler res st = Ok tt st'
    /\ written (runtime st')
       = (written (runtime st)
          ++ [(res, ("event: hello" ++ JsString.nl)%string); (res, data)])%list
    /\ contains data "SSE conectado"
    /\ sseClients (facade st') = JsSet.add res (sseClients (facade st))
    /\ In res (sseClients (facade st'))
    /\ (forall c, c <> res ->
          written_to c (runtime st') = written_to c (runtime st))
    /\ timers (runtime st') = timers (runtime st)
    /\ subscribers (facade st') = subscribers (facade st)
    /\ bus (facade st') = bus (facade st)
    /\ ~ In res (sseClients (facade (final (events_close res st')))).
Proof.
  destruct st as [[b d s c] r].
  eexists. exists (final (events_handler res (mkSystem (mkFacade b d s c) r))).
  split; [reflexivity|]. cbn.
  unfold events_handler, bind, liftIO, write. cbn. rewrite <- app_assoc. cbn.
  split; [reflexivity|].
  split.
  { exists ("data: {" ++ JsString.dquote ++ "ok" ++ JsString.dquote ++ ":true,"
            ++ JsString.dquote ++ "message" ++ JsString.dquote ++ ":"
            ++ JsString.dquote).
    exists (JsString.dquote ++ "}" ++ JsString.nl ++ JsString.nl).
    reflexivity. }
  split; [reflexivity|]. split; [apply In_add_client|].
  split.
  { intros c0 Hc0. unfold written_to. cbn. rewrite filter_app. cbn.
    apply Nat.eqb_neq in Hc0. rewrite (Nat.eqb_sym res c0), Hc0. cbn.
    now rewrite app_nil_r. }
  split; [reflexivity|]. split; [reflexivity|]. split; [reflexivity|].
  unfold JsSet.delete. rewrite filter_In, Nat.eqb_refl. cbn.
  intros [_ H]. discriminate.
Qed.

(** ** The server as a whole *)

Lemma final_bind_ret {S A B} (c : M S A) (f : A -> B) (s : S) :
  final ((x <- c ;; ret (f x)) s) = final (c s).
Proof. unfold bind, ret. destruct (c s); reflexivity. Qed.

Lemma final_then {S A B} (c : M S A) (b : B) (s : S) :
  final ((c ;; ret b) s) = final (c s).
Proof. unfold bind, ret. destruct (c s); reflexivity. Qed.

Lemma channels_supported_bus (st st' : System) :
  bus (facade st') = bus (facade st) ->
  channels_supported st -> channels_supported st'.
Proof. unfold channels_supported. now intros ->. Qed.

Lemma channels_supported_subscribeUser (n c : string) (st : System) :
  supported c -> channels_supported st ->
  channels_supported (final (subscribeUser n c st)).
Proof.
  intros Hc. rewrite subscribeUser_unfold. cbv zeta. cbn [final].
  unfold channels_supported, EventBus.subscribe, JsMap.values. simpl.
  rewrite !Forall_map. intros H. apply Forall_set; [exact H | exact Hc].
Qed.

Lemma channels_supported_unsubscribeUser (id : string) (st : System) :
  channels_supported st -> channels_supported (final (unsubscribeUser id st)).
Proof.
  rewrite unsubscribeUser_unfold. cbn [final].
  unfold channels_supported, EventBus.unsubscribe, JsMap.values. simpl.
  rewrite !Forall_map. apply Forall_delete.
Qed.

Lemma subscribe_handler_final (n c : string) (st : System) :
  n <> "" -> supported c ->
  subscribe_handler (JsStr n) (JsStr c) st
  = Ok (json (SubscribeBody
                (Subscriber.mk (uuid_oracle (runtime st) (uuid_calls (runtime st)))
                               (JsString.trim n) c)
                (EventBus.count
                   (bus (facade (final (subscribeUser (JsString.trim n) c st)))))))
       (final (subscribeUser (JsString.trim n) c st)).
Proof.
  intros Hn Hc. rewrite (subscribe_handler_accepts n c st Hn Hc).
  unfold bind. rewrite subscribeUser_unfold. reflexivity.
Qed.

Lemma unsubscribe_handler_final (id : JsValue) (st : System) :
  (exists error, unsubscribe_handler id st = Ok (bad_request error) st)
  \/ unsubscribe_handler id st
     = Ok (json (UnsubscribeBody true (EventBus.count (bus (facade st))))) st
  \/ (exists s,
        unsubscribe_handler id st
        = Ok (json (UnsubscribeBody true
                      (EventBus.count
                         (bus (facade (final (unsubscribeUser s st)))))))
             (final (unsubscribeUser s st))).
Proof.
  destruct id as [| |b|q|s|]; try (left; eexists; reflexivity).
  - destruct b; [right; left; reflexivity | left; eexists; reflexivity].
  - unfold unsubscribe_handler. destruct (negb (truthy (JsNumber q)));
      [left; eexists; reflexivity | right; left; reflexivity].
  - destruct (string_dec s "") as [->|Hs]; [left; eexists; reflexivity|].
    right. right. exists s. unfold unsubscribe_handler. cbn [truthy].
    apply String.eqb_neq in Hs. rewrite Hs. cbn [negb].
    unfold bind. rewrite unsubscribeUser_unfold. reflexivity.
  - right. left. reflexivity.
Qed.

Lemma publish_handler_final (s t : string) (st : System) :
  s <> "" -> known_type t -> channels_supported st ->
  exists event,
    publish_handler (JsStr s) (JsStr t) st
    = Ok (json (PublishBody event (EventBus.count (bus (facade st)))))
         (final (publishEvent (JsString.trim s) t st)).
Proof.
  intros Hs Ht Hch. rewrite (publish_handler_accepts s t st Hs Ht).
  destruct (publishEvent_trace (JsString.trim s) t st Hch)
    as (batch & new & E & _).
  unfold bind. rewrite E. eexists. reflexivity.
Qed.

Lemma events_handler_final (res : Response) (st : System) :
  events_handler res st = Ok tt (final (events_handler res st))
  /\ facade (final (events_handler res st))
     = facade (final (addSseClient res st)).
Proof. destruct st as [[b d s c] r]. split; reflexivity. Qed.

Lemma fire_final (k : nat) (st : System) :
  fire k st = Ok tt (final (fire k st)).
Proof.
  destruct (nth_error (timers (runtime st)) k) as [t|] eqn:Hk.
  - now rewrite (fire_unfold k t st Hk).
  - unfold fire, bind, gets. rewrite Hk. reflexivity.
Qed.

(** No route and no callback throws where every listener is on a known
    channel. *)
Lemma serve_returns (req : Request) (st : System) :
  channels_supported st -> exists resp st', serve req st = Ok resp st'.
Proof.
  intros Hch. destruct req as [name channel|id| |title type|res|res|k];
    unfold serve, bind.
  - destruct (subscribe_handler_cases name channel st)
      as [(n & c & -> & -> & Hn & Hc)|[error E]].
    + rewrite (subscribe_handler_final n c st Hn Hc). eauto.
    + rewrite E. eauto.
  - destruct (unsubscribe_handler_final id st) as [[error E]|[E|[s E]]];
      rewrite E; eauto.
  - do 2 eexists. reflexivity.
  - destruct (publish_handler_cases title type st)
      as [(s & t & -> & -> & Hs & Ht)|[error E]].
    + destruct (publish_handler_final s t st Hs Ht Hch) as [event E].
      rewrite E. eauto.
    + rewrite E. eauto.
  - destruct (events_handler_final res st) as [E _]. rewrite E. eauto.
  - unfold events_close, removeSseClient, on_facade, modify. eauto.
  - rewrite fire_final. eauto.
Qed.

(** What a request can do to the facade: nothing, a subscription on a
    known channel, an unsubscription, a connection or a disconnection. *)
Lemma serve_facade (req : Request) (st : System) :
  facade (final (serve req st)) = facade st
  \/ (exists n c, supported c
                  /\ facade (final (serve req st))
                     = facade (final (subscribeUser n c st)))
  \/ (exists id, facade (final (serve req st))
                 = facade (final (unsubscribeUser id st)))
  \/ (exists res, facade (final (serve req st))
                  = facade (final (addSseClient res st)))
  \/ (exists res, facade (final (serve req st))
                  = facade (final (removeSseClient res st))).
Proof.
  destruct req as [name channel|id| |title type|res|res|k]; unfold serve.
  - rewrite final_bind_ret.
    destruct (subscribe_handler_cases name channel st)
      as [(n & c & -> & -> & Hn & Hc)|[error E]].
    + right. left. exists (JsString.trim n), c. split; [exact Hc|].
      now rewrite (subscribe_handler_final n c st Hn Hc).
    + left. now rewrite E.
  - rewrite final_bind_ret.
    destruct (unsubscribe_handler_final id st) as [[error E]|[E|[s E]]];
      rewrite E; [now left | now left |].
    right. right. left. now exists s.
  - left. reflexivity.
  - rewrite final_bind_ret. left.
    destruct (publish_handler_cases title type st)
      as [(s & t & -> & -> & Hs & Ht)|[error E]]; [|now rewrite E].
    rewrite (publish_handler_accepts s t st Hs Ht).
    pose proof (publishEvent_facade (JsString.trim s) t st) as Hf.
    unfold bind. destruct (publishEvent (JsString.trim s) t st); exact Hf.
  - rewrite final_then. right. right. right. left. exists res.
    apply events_handler_final.
  - rewrite final_then. right. right. right. right. now exists res.
  - rewrite final_then. left. apply fire_facade.
Qed.

Lemma http_reachable_invariants (st : System) :
  http_reachable st -> lockstep (facade st) /\ channels_supported st.
Proof.
  induction 1 as [r|st req Hr [IHl IHc]].
  - split; [apply lockstep_initial | constructor].
  - destruct (serve_facade req st)
      as [E|[(n & c & Hc & E)|[(id & E)|[(res & E)|(res & E)]]]].
    + split; [now rewrite E|].
      apply (channels_supported_bus st); [now rewrite E | exact IHc].
    + split; [rewrite E; now apply lockstep_subscribeUser|].
      apply (channels_supported_bus (final (subscribeUser n c st)));
        [now rewrite E | now apply channels_supported_subscribeUser].
    + split; [rewrite E; now apply lockstep_unsubscribeUser|].
      apply (channels_supported_bus (final (unsubscribeUser id st)));
        [now rewrite E | now apply channels_supported_unsubscribeUser].
    + split; [rewrite E; now apply lockstep_addSseClient|].
      apply (channels_supported_bus st); [|exact IHc].
      rewrite E. now destruct st as [[b d s cl] r].
    + split; [rewrite E; now apply lockstep_removeSseClient|].
      apply (channels_supported_bus st); [|exact IHc].
      rewrite E. now destruct st as [[b d s cl] r].
Qed.

(** X25. Through its routes the server cannot be brought to throw. In
    every state reached from the empty facade by requests, disconnections
    and timers, every listener is on one of the three channels and
    registry and bus are in lockstep; so every further request is answered
    and every callback returns: the [throw] of the factory is never
    reached, and no publish call is aborted half way. *)
Theorem X25_no_request_makes_the_server_throw (st : System) :
  http_reachable st ->
  lockstep (facade st)
  /\ channels_supported st
  /\ (forall req, exists resp st', serve req st = Ok resp st')
  /\ (forall title type, exists event st',
        publishEvent title type st = Ok event st').
Proof.
  intros Hr. destruct (http_reachable_invariants st Hr) as [Hl Hc].
  split; [exact Hl|]. split; [exact Hc|]. split.
  - intros req. now apply serve_returns.
  - intros title type.
    destruct (publishEvent_trace title type st Hc) as (batch & new & E & _).
    eauto.
Qed.

(** A subscription on the channel fax is refused, so the publish request
    that follows it is answered. *)
Lemma X25_no_request_makes_the_server_throw_witness :
  exists resp st',
    serve (PostPublish (JsStr "X") (JsStr "CREATED"))
          (final (serve (PostSubscribe (JsStr "Fay") (JsStr "fax"))
                        (final (serve (PostSubscribe (JsStr "Ana") (JsStr "email"))
                                      (initial Sample.rt)))))
    = Ok resp st'.
Proof.
  apply (X25_no_request_makes_the_server_throw
           (final (serve (PostSubscribe (JsStr "Fay") (JsStr "fax"))
                         (final (serve (PostSubscribe (JsStr "Ana") (JsStr "email"))
                                       (initial Sample.rt)))))).
  apply http_reachable_serve, http_reachable_serve, http_reachable_initial.
Defined.

(** ** From publish to delivery *)



